(** * VN-Bot: the voice-channel nickname bot

    A shallow embedding of the presence tracker ([bot_working.py], the
    variant started by [main.py], and its sibling [bot.py]), of the identity
    generator and of the nickname pool store ([models.py]), followed by the
    properties of the specification that concern them.

    Conventions of the embedding.
    - A Python [str] is a [string]; each character stands for one code point
      below 256.
    - A Python [int] (user, guild and row identifiers) is a [Z].
    - The ledger [original_nicknames] (a Python [dict]) is a [gmap Z string].
    - Code that mutates state or raises runs in the monad [M S]: a state of
      type [S] is threaded through and survives a raised exception, as the
      attributes of a Python object do.
    - Outcomes the program cannot decide are inputs: the draws of the
      random number generators and the platform's answer to an
      identity-change request. *)

From stdpp Require Import gmap strings list sorting.
From Stdlib Require Import ZArith Ascii String DecimalString.

Local Open Scope string_scope.
Local Open Scope Z_scope.

(** ** Python strings *)

Module Py.

(** [str.isspace] on the code points below 256: the ASCII controls 9-13 and
    28-31, the space, NEL (133) and the no-break space (160). *)
Definition isspace (c : ascii) : bool :=
  let n := nat_of_ascii c in
  ((9 <=? n)%nat && (n <=? 13)%nat) || ((28 <=? n)%nat && (n <=? 32)%nat)
  || (n =? 133)%nat || (n =? 160)%nat.

Fixpoint lstrip (s : string) : string :=
  match s with
  | EmptyString => EmptyString
  | String c s' => if isspace c then lstrip s' else s
  end.

Fixpoint rstrip (s : string) : string :=
  match s with
  | EmptyString => EmptyString
  | String c s' =>
      match rstrip s' with
      | EmptyString => if isspace c then EmptyString else String c EmptyString
      | r => String c r
      end
  end.

(** [s.strip()] *)
Definition strip (s : string) : string := rstrip (lstrip s).

(** [s.isascii()] *)
Definition isascii (s : string) : bool :=
  forallb (λ c, (nat_of_ascii c <? 128)%nat) (list_ascii_of_string s).

(** Truth value of a string: [if s:] holds for the non-empty ones. *)
Definition truthy (s : string) : bool :=
  match s with EmptyString => false | _ => true end.

(** Decimal digits of a natural number. *)
Definition digits (n : nat) : string := NilZero.string_of_uint (Nat.to_uint n).

Fixpoint zeros (k : nat) : string :=
  match k with O => EmptyString | S k' => String "0" (zeros k') end.

(** The format specification [{z:03d}]: sign first, then zeros up to a total
    width of three characters, then the digits. *)
Definition fmt_03d (z : Z) : string :=
  let ds := digits (Z.abs_nat z) in
  if z <? 0
  then String "-" (zeros (2 - String.length ds)%nat +:+ ds)
  else zeros (3 - String.length ds)%nat +:+ ds.

End Py.

(** ** SQL pattern matching *)

Module Sql.

(** Case folding of the letters A-Z, as [lower()] does on ASCII text. *)
Definition lower (c : ascii) : ascii :=
  let n := nat_of_ascii c in
  if (65 <=? n)%nat && (n <=? 90)%nat then ascii_of_nat (n + 32) else c.

Definition ceqb (c d : ascii) : bool := Ascii.eqb (lower c) (lower d).

(** [like_ci pat s]: does the text [s] match the pattern [pat]?  In a
    pattern [%] stands for any run of characters, [_] for any single
    character, and a backslash makes the character after it literal (the
    default escape of PostgreSQL, the engine that has [ILIKE]); every other
    character stands for itself up to letter case.  A pattern that ends in a
    lone backslash matches nothing here; the engine rejects such a pattern
    when the matcher reaches its end, a case none of the results below
    touches.  Which letters beyond A-Z the engine folds depends on its
    locale; a result that needs the two to agree is stated for ASCII
    text. *)
Fixpoint like_ci (pat : list ascii) : list ascii → bool :=
  match pat with
  | [] => λ s, match s with [] => true | _ => false end
  | p :: pat' =>
      if Ascii.eqb p "%" then
        fix any (s : list ascii) : bool :=
          like_ci pat' s || match s with [] => false | _ :: s' => any s' end
      else if Ascii.eqb p "_" then
        λ s, match s with [] => false | _ :: s' => like_ci pat' s' end
      else if Ascii.eqb p "\" then
        match pat' with
        | [] => λ _, false
        | q :: pat'' =>
            λ s, match s with
                 | [] => false
                 | c :: s' => ceqb q c && like_ci pat'' s'
                 end
        end
      else
        λ s, match s with
             | [] => false
             | c :: s' => ceqb p c && like_ci pat' s'
             end
  end.

(** [column.ilike(pattern)]: the column value on the left, the pattern on
    the right. *)
Definition ilike (value pattern : string) : bool :=
  like_ci (list_ascii_of_string pattern) (list_ascii_of_string value).

(** A character without a special meaning in a pattern. *)
Definition plain (c : ascii) : bool :=
  negb (Ascii.eqb c "%" || Ascii.eqb c "_" || Ascii.eqb c "\").

(** Equality up to letter case, the comparison the specification has in
    mind; only used to state properties. *)
Fixpoint eq_ci (a b : string) : bool :=
  match a, b with
  | EmptyString, EmptyString => true
  | String c a', String d b' => ceqb c d && eq_ci a' b'
  | _, _ => false
  end.

End Sql.

(** ** Exceptions and the state-and-exception monad *)

(** The exceptions that occur in the modelled code. *)
Inductive exn :=
  | KeyError (key : string)   (* a [dict] subscript with a missing key *)
  | IndexError                (* [random.choice] on an empty sequence *)
  | OperationalError          (* the database engine cannot be reached *)
  | DataError                 (* the engine refuses a value: too long for its column *)
  | IntegrityError            (* the engine refuses a row: a foreign key has no target *)
  | DetachedInstanceError     (* a column of an expired object read after its session closed *)
  | AttributeError            (* an attribute of [None] *)
  | Forbidden                 (* [discord.Forbidden]: missing permission *)
  | HTTPException.            (* any other failure of a platform request *)

Inductive result (A : Type) :=
  | Ok (a : A)
  | Raise (e : exn).
Arguments Ok {A} a.
Arguments Raise {A} e.

(** A computation over a state [S]: it returns a value or raises, and in both
    cases leaves a state behind. *)
Definition M (S A : Type) : Type := S → result A * S.

Definition ret {S A} (a : A) : M S A := λ s, (Ok a, s).

Definition bind {S A B} (m : M S A) (k : A → M S B) : M S B :=
  λ s, match m s with
       | (Ok a, s') => k a s'
       | (Raise e, s') => (Raise e, s')
       end.

Definition raise {S A} (e : exn) : M S A := λ s, (Raise e, s).

(** [try: body except ... as e: handler e] *)
Definition try_except {S A} (body : M S A) (handler : exn → M S A) : M S A :=
  λ s, match body s with
       | (Ok a, s') => (Ok a, s')
       | (Raise e, s') => handler e s'
       end.

Definition gets {S A} (f : S → A) : M S A := λ s, (Ok (f s), s).
Definition modify {S} (f : S → S) : M S unit := λ s, (Ok tt, f s).

Declare Scope py_scope.
Delimit Scope py_scope with py.
Notation "x ← y ; z" := (bind y (λ x : _, z))
  (at level 20, y at level 100, z at level 200, only parsing) : py_scope.
Notation "x ;; z" := (bind x (λ _, z))
  (at level 100, z at level 200, only parsing, right associativity) : py_scope.
Local Open Scope py_scope.

(** ** The nickname pool store ([models.py]) *)

(** A row of table [guilds].  The two timestamp columns are filled by the
    engine and read by no operation; they are left out. *)
Module Guild.
Record t := mk { id : Z; name : string; owner_id : Z }.
End Guild.

(** A row of table [nicknames] (without its timestamp column). *)
Module Nickname.
Record t := mk {
  id : Z;
  guild_id : Z;
  nickname : string;
  is_active : bool;
  created_by : Z
}.
End Nickname.

(** The database behind a [DatabaseManager]: whether the engine answers, the
    two tables in storage order, and the sequence that feeds the
    autoincremented [nicknames.id].  An engine that answers does so for the
    whole of a call.  Guild identifiers and guild names come from the
    platform, which keeps them within the columns of table [guilds]
    (identifiers below 2^63, names of at most 100 characters); the text of a
    nickname comes from a user and is checked by the engine when the row is
    written. *)
Record Database := mkDatabase {
  up : bool;
  guilds : list Guild.t;
  nicknames : list Nickname.t;
  next_id : Z
}.

(** What a method hands to its caller once its session is closed: an object
    whose columns are loaded, or one whose columns a commit has expired and
    that nothing has loaded again. *)
Inductive detached (A : Type) :=
  | Loaded (a : A)
  | Expired.
Arguments Loaded {A} a.
Arguments Expired {A}.


Module DatabaseManager.

(** Every statement of a session reaches the engine first. *)
Definition execute : M Database unit :=
  λ db, if up db then (Ok tt, db) else (Raise OperationalError, db).

(** [session.query(Guild).filter(Guild.id == guild_id).first()] *)
Definition query_guild (guild_id : Z) : M Database (option Guild.t) :=
  execute ;;
  gets (λ db, List.find (λ g, Guild.id g =? guild_id) (guilds db)).

(** The filter shared by [add_nickname] and [remove_nickname]:
    [Nickname.guild_id == guild_id, Nickname.nickname.ilike(cleaned_nickname),
     Nickname.is_active == True]. *)
Definition matches (guild_id : Z) (cleaned_nickname : string) (n : Nickname.t) : bool :=
  (Nickname.guild_id n =? guild_id)
  && Sql.ilike (Nickname.nickname n) cleaned_nickname
  && Nickname.is_active n.

(** [session.query(Nickname).filter(...).first()]: without an ordering
    clause the first row in storage order. *)
Definition query_nickname (guild_id : Z) (cleaned_nickname : string)
  : M Database (option Nickname.t) :=
  execute ;;
  gets (λ db, List.find (matches guild_id cleaned_nickname) (nicknames db)).

(** The active rows of a guild:
    [Nickname.guild_id == guild_id, Nickname.is_active == True]. *)
Definition active_in (guild_id : Z) (n : Nickname.t) : bool :=
  (Nickname.guild_id n =? guild_id) && Nickname.is_active n.

(** The insert path refreshes the new object after its commit; the update
    path commits and returns at once, so the object it returns is expired;
    the path that finds nothing to change never commits. *)
Definition ensure_guild_exists (guild_id : Z) (guild_name : string) (owner_id : Z)
  : M Database (detached Guild.t) :=
  guild ← query_guild guild_id;
  match guild with
  | None =>
      let guild := Guild.mk guild_id guild_name owner_id in
      execute ;;
      modify (λ db, mkDatabase (up db) (guilds db ++ [guild]) (nicknames db) (next_id db)) ;;
      ret (Loaded guild)
  | Some guild =>
      if negb (String.eqb (Guild.name guild) guild_name)
         || negb (Guild.owner_id guild =? owner_id)
      then
        let guild' := Guild.mk (Guild.id guild) guild_name owner_id in
        execute ;;
        modify (λ db, mkDatabase (up db)
                  (map (λ g, if Guild.id g =? Guild.id guild then guild' else g) (guilds db))
                  (nicknames db) (next_id db)) ;;
        ret Expired
      else ret (Loaded guild)
  end.

(** [session.add(new_nickname); session.commit(); session.refresh(new_nickname)]:
    the engine refuses a text longer than the 50 characters of the column
    and a guild that table [guilds] does not have, and the session rolls
    back; otherwise the row gets the next identifier of the sequence and the
    column default [is_active = True], and the refresh loads what was
    stored. *)
Definition insert_nickname (guild_id : Z) (cleaned_nickname : string) (created_by : Z)
  : M Database Nickname.t :=
  execute ;;
  registered ← gets (λ db, existsb (λ g, Guild.id g =? guild_id) (guilds db));
  if (50 <? String.length cleaned_nickname)%nat then raise DataError
  else if negb registered then raise IntegrityError
  else
    new_id ← gets next_id;
    let new_nickname := Nickname.mk new_id guild_id cleaned_nickname true created_by in
    modify (λ db, mkDatabase (up db) (guilds db) (nicknames db ++ [new_nickname]) (new_id + 1)) ;;
    ret new_nickname.

Definition add_nickname (guild_id : Z) (nickname : string) (created_by : Z)
  : M Database (option Nickname.t) :=
  let cleaned_nickname := Py.strip nickname in
  if negb (Py.truthy cleaned_nickname) then ret None
  else
    existing ← query_nickname guild_id cleaned_nickname;
    match existing with
    | Some _ => ret None
    | None =>
        new_nickname ← insert_nickname guild_id cleaned_nickname created_by;
        ret (Some new_nickname)
    end.

(** [nickname_obj.is_active = False; session.commit()]: an update of the row
    with that primary key. *)
Definition soft_delete (row_id : Z) (n : Nickname.t) : Nickname.t :=
  if Nickname.id n =? row_id
  then Nickname.mk (Nickname.id n) (Nickname.guild_id n) (Nickname.nickname n) false
         (Nickname.created_by n)
  else n.

Definition remove_nickname (guild_id : Z) (nickname : string) (requester_id : Z)
  : M Database (bool * string) :=
  let cleaned_nickname := Py.strip nickname in
  guild ← query_guild guild_id;
  match guild with
  | None => ret (false, "Guild not found")
  | Some guild =>
      if negb (Guild.owner_id guild =? requester_id)
      then ret (false, "Only the server owner can remove nicknames")
      else
        nickname_obj ← query_nickname guild_id cleaned_nickname;
        match nickname_obj with
        | None => ret (false, "Nickname '" +:+ cleaned_nickname +:+ "' not found")
        | Some nickname_obj =>
            execute ;;
            modify (λ db, mkDatabase (up db) (guilds db)
                      (map (soft_delete (Nickname.id nickname_obj)) (nicknames db))
                      (next_id db)) ;;
            ret (true, "Nickname '" +:+ cleaned_nickname +:+ "' removed successfully")
        end
  end.

(** [ORDER BY random()] followed by [first()]: a uniformly chosen row of the
    selection; [draw] is the random draw, reduced modulo the number of
    selected rows. *)
Definition get_random_nickname (guild_id : Z) (draw : nat) : M Database (option string) :=
  execute ;;
  rows ← gets (λ db, List.filter (active_in guild_id) (nicknames db));
  ret (Nickname.nickname <$> rows !! (draw mod List.length rows)%nat).

End DatabaseManager.

(** ** Configuration ([config.py]) *)

Module Config.

(** The dictionary [BOT_CONFIG]: two keys, both with a string value. *)
Definition BOT_CONFIG : gmap string string :=
  <["command_prefix" := "!"]>
  (<["description" := "🎭 Transform your voice channels with automatic identity magic! Assigns mysterious nicknames when users join voice channels and perfectly restores them when they leave."]> ∅).

(** The module-level list [NICKNAME_FORMATS], which is not an entry of
    [BOT_CONFIG]. *)
Definition NICKNAME_FORMATS : list string :=
  ["Subject 032"; "Operator-91"; "Naib-{counter:03d}"].

End Config.

(** ** The platform connector *)

(** A guild member as the platform shows it: the account name, the global
    display name of the account when it has one, the guild-specific override
    [nick] when one is set, and the guild it belongs to ([member.guild.id]). *)
Module Member.
Record t := make {
  id : Z;
  name : string;
  global_name : option string;
  nick : option string;
  bot : bool;
  guild_id : Z
}.

(** A member whose account has no global display name. *)
Definition mk (id : Z) (name : string) (nick : option string) (bot : bool)
    (guild_id : Z) : t :=
  make id name None nick bot guild_id.

(** What the platform shows when there is no override: the global display
    name if there is one, else the account name. *)
Definition fallback_name (m : t) : string :=
  match global_name m with
  | Some g => if Py.truthy g then g else name m
  | None => name m
  end.

(** [member.display_name]: [nick or global_name or name]. *)
Definition display_name (m : t) : string :=
  match nick m with
  | Some n => if Py.truthy n then n else fallback_name m
  | None => fallback_name m
  end.

Definition with_nick (m : t) (n : option string) : t :=
  make (id m) (name m) (global_name m) n (bot m) (guild_id m).
End Member.

(** The platform's answer to an identity-change request. *)
Inductive answer :=
  | Accepted
  | Refused     (* raises [discord.Forbidden] *)
  | Broken.     (* raises another exception *)

(** What the logger receives; each constructor stands for one message of the
    source, with the values it interpolates. *)
Inductive level := INFO | WARNING | ERROR.

Inductive log_msg :=
  | NoNicknamesAvailable (guild_id : Z)          (* No nicknames available for guild .. *)
  | ErrorGenerating (guild_id : Z) (e : exn)     (* Error generating nickname for guild ..: e *)
  | JoinedVoice (user_id : Z)                    (* .. joined voice channel: .. *)
  | StoredOriginal (user_id : Z) (original : string) (* Stored original nickname for ..: '..' *)
  | Changed (user_id : Z) (new_nickname : string)    (* Changed ..'s nickname to '..' *)
  | NoPermissionToChange (user_id : Z)           (* No permission to change nickname for .. *)
  | ErrorOnJoin (user_id : Z) (e : exn)          (* Error handling voice join for ..: e *)
  | Restored (user_id : Z) (original : string)   (* Restored ..'s nickname to '..' *)
  | NoPermissionToRestore (user_id : Z)          (* No permission to restore nickname for .. *)
  | ErrorOnLeave (user_id : Z) (e : exn)         (* Error handling voice leave for ..: e *)
  | ManuallyRestored (user_id : Z)               (* Manually restored ..'s nickname *)
  | ErrorInRestore (e : exn).                    (* Error in restore command: e *)

(** What [interaction.response.send_message] is given by the restore
    command. *)
Inductive reply :=
  | OwnerOnly                                    (* Only the server owner can use this command. *)
  | MemberNotFound                               (* Member not found in this server. *)
  | RestoredTo (user_id : Z) (original : string) (* Restored ..'s nickname to `..` *)
  | NoStoredNickname (user_id : Z)               (* No stored nickname found for .. *)
  | NoPermission                                 (* No permission to change nicknames. *)
  | ErrorRestoring.                              (* Error restoring nickname. *)

(** An identity-change request, [member.edit(nick=..)]: the user and the
    requested override, [None] to clear it. *)
Definition request : Type := Z * option string.

(** ** The bot and what it talks to *)

(** The attributes of the bot object ([original_nicknames], [db], with
    [None] when the database could not be initialised, and [logger]) and the
    two outgoing channels: the requests sent to the platform and the replies
    sent to the issuer of a command, oldest first. *)
Record World := mkWorld {
  original_nicknames : gmap Z string;
  db : option Database;
  logger : list (level * log_msg);
  requests : list request;
  replies : list reply
}.

Definition set_ledger (f : gmap Z string → gmap Z string) (w : World) : World :=
  mkWorld (f (original_nicknames w)) (db w) (logger w) (requests w) (replies w).

Definition log (l : level) (m : log_msg) : M World unit :=
  modify (λ w, mkWorld (original_nicknames w) (db w) (logger w ++ [(l, m)])
                 (requests w) (replies w)).

Definition send_message (r : reply) : M World unit :=
  modify (λ w, mkWorld (original_nicknames w) (db w) (logger w) (requests w)
                 (replies w ++ [r])).

(** A call of a [DatabaseManager] method on [self.db]. *)
Definition on_db {A} (m : M Database A) : M World A :=
  λ w, match db w with
       | Some d =>
           let '(r, d') := m d in
           (r, mkWorld (original_nicknames w) (Some d') (logger w) (requests w) (replies w))
       | None => (Raise AttributeError, w)
       end.

(** [await member.edit(nick=nick)]: the request goes out; when the platform
    accepts it, the member carries the new override. *)
Definition edit (member : Member.t) (nick : option string) (a : answer) : M World Member.t :=
  modify (λ w, mkWorld (original_nicknames w) (db w) (logger w)
                 (requests w ++ [(Member.id member, nick)]) (replies w)) ;;
  match a with
  | Accepted => ret (Member.with_nick member nick)
  | Refused => raise Forbidden
  | Broken => raise HTTPException
  end.

(** The draws of one call of the identity generator: the row picked by the
    store, the index picked by [random.choice], the number picked by
    [random.randint]. *)
Record draws := mkDraws { row : nat; pick : nat; count : nat }.

(** [random.randint(a, b)]: a number of [a..b], here the draw reduced to that
    interval. *)
Definition randint (a b : Z) (draw : nat) : Z := a + Z.of_nat draw mod (b - a + 1).

(** [random.choice(seq)] on a string: one of its characters. *)
Definition choice {S} (seq : string) (draw : nat) : M S string :=
  match String.get (draw mod String.length seq) seq with
  | Some c => ret (String c EmptyString)
  | None => raise IndexError
  end.

(** [d[key]] *)
Definition subscript {S} (d : gmap string string) (key : string) : M S string :=
  match d !! key with
  | Some v => ret v
  | None => raise (KeyError key)
  end.

(** The identity generator; the three variants of the bot share it word for
    word.  The [return] inside the [try] block is the [Some] of the first
    step. *)
Definition generate_nickname (guild_id : Z) (d : draws) : M World string :=
  found ← try_except
    (self_db ← gets db;
     match self_db with
     | Some _ =>
         nickname ← on_db (DatabaseManager.get_random_nickname guild_id (row d));
         match nickname with
         | Some nickname =>
             if Py.truthy nickname then ret (Some nickname)
             else (log WARNING (NoNicknamesAvailable guild_id) ;; ret None)
         | None => log WARNING (NoNicknamesAvailable guild_id) ;; ret None
         end
     | None => ret None
     end)
    (λ e, log ERROR (ErrorGenerating guild_id e) ;; ret None);
  match found with
  | Some nickname => ret nickname
  | None =>
      fallback_nicknames ← subscript Config.BOT_CONFIG "nickname_formats";
      selected ← choice fallback_nicknames (pick d);
      let counter := randint 1 999 (count d) in
      ret (selected +:+ " " +:+ Py.fmt_03d counter)
  end.

(** [before] and [after] of a voice state update: the channel the member is
    in, if any. *)
Record VoiceState := mkVoiceState { channel : option Z }.

(** A slash-command invocation inside a guild: who issued it (a member of
    the guild, or a bare user the guild has to look up), the guild's owner
    and the guild's member table. *)
Module Interaction.
Inductive issuer :=
  | IsMember (m : Member.t)
  | IsUser (id : Z).
Definition issuer_id (u : issuer) : Z :=
  match u with IsMember m => Member.id m | IsUser id => id end.
Record t := mk {
  user : issuer;
  guild_owner_id : option Z;
  guild_members : gmap Z Member.t
}.
End Interaction.

(** ** The presence tracker of [bot_working.py] *)

Module bot_working.

Definition handle_voice_join (member : Member.t) (d : draws) (a : answer)
  : M World Member.t :=
  try_except
    (let original_nick := Member.display_name member in
     modify (set_ledger (insert (Member.id member) original_nick)) ;;
     new_nickname ← generate_nickname (Member.guild_id member) d;
     if Py.truthy new_nickname then
       member' ← edit member (Some new_nickname) a;
       log INFO (Changed (Member.id member) new_nickname) ;;
       ret member'
     else ret member)
    (λ e, match e with
          | Forbidden => log WARNING (NoPermissionToChange (Member.id member)) ;; ret member
          | _ => log ERROR (ErrorOnJoin (Member.id member) e) ;; ret member
          end).

Definition handle_voice_leave (member : Member.t) (a : answer) : M World Member.t :=
  try_except
    (stored ← gets (λ w, original_nicknames w !! Member.id member);
     match stored with
     | Some original_nick =>
         member' ←
           (if negb (String.eqb original_nick (Member.name member))
            then edit member (Some original_nick) a
            else edit member None a);
         modify (set_ledger (delete (Member.id member))) ;;
         log INFO (Restored (Member.id member) original_nick) ;;
         ret member'
     | None => ret member
     end)
    (λ e, match e with
          | Forbidden => log WARNING (NoPermissionToRestore (Member.id member)) ;; ret member
          | _ => log ERROR (ErrorOnLeave (Member.id member) e) ;; ret member
          end).

Definition on_voice_state_update (member : Member.t) (before after : VoiceState)
    (d : draws) (a : answer) : M World Member.t :=
  if Member.bot member then ret member
  else
    match channel before, channel after with
    | None, Some _ => handle_voice_join member d a
    | Some _, None => handle_voice_leave member a
    | _, _ => ret member
    end.

(** The [restore] command.  The result is the target member as the command
    leaves it, when the command got as far as having one. *)
Definition restore_command (interaction : Interaction.t) (member : option Member.t)
    (a : answer) : M World (option Member.t) :=
  try_except
    (if negb (bool_decide (Some (Interaction.issuer_id (Interaction.user interaction))
                           = Interaction.guild_owner_id interaction))
     then send_message OwnerOnly ;; ret None
     else
       let target_member :=
         match member with
         | Some m => Some m
         | None =>
             match Interaction.user interaction with
             | Interaction.IsMember m => Some m
             | Interaction.IsUser id => Interaction.guild_members interaction !! id
             end
         end in
       match target_member with
       | None => send_message MemberNotFound ;; ret None
       | Some target_member =>
           stored ← gets (λ w, original_nicknames w !! Member.id target_member);
           match stored with
           | Some original_nick =>
               target' ←
                 (if negb (String.eqb original_nick (Member.name target_member))
                  then edit target_member (Some original_nick) a
                  else edit target_member None a);
               modify (set_ledger (delete (Member.id target_member))) ;;
               send_message (RestoredTo (Member.id target_member) original_nick) ;;
               log INFO (ManuallyRestored (Member.id target_member)) ;;
               ret (Some target')
           | None =>
               send_message (NoStoredNickname (Member.id target_member)) ;;
               ret (Some target_member)
           end
       end)
    (λ e, match e with
          | Forbidden => send_message NoPermission ;; ret None
          | _ => log ERROR (ErrorInRestore e) ;; send_message ErrorRestoring ;; ret None
          end).

End bot_working.

(** ** The presence tracker of [bot.py] *)

Module bot_py.

Definition handle_voice_join (member : Member.t) (d : draws) (a : answer)
  : M World Member.t :=
  let user_id := Member.id member in
  let original_nickname := Member.display_name member in
  tracked ← gets (λ w, original_nicknames w !! user_id);
  match tracked with
  | Some _ => ret member
  | None =>
      modify (set_ledger (insert user_id original_nickname)) ;;
      log INFO (JoinedVoice user_id) ;;
      log INFO (StoredOriginal user_id original_nickname) ;;
      new_nickname ← generate_nickname (Member.guild_id member) d;
      if Py.truthy new_nickname then
        try_except
          (member' ← edit member (Some new_nickname) a;
           log INFO (Changed user_id new_nickname) ;;
           ret member')
          (λ e, match e with
                | Forbidden => log WARNING (NoPermissionToChange user_id) ;; ret member
                | _ => log ERROR (ErrorOnJoin user_id e) ;; ret member
                end)
      else ret member
  end.

Definition handle_voice_leave (member : Member.t) (a : answer) : M World Member.t :=
  let user_id := Member.id member in
  tracked ← gets (λ w, original_nicknames w !! user_id);
  match tracked with
  | None => ret member
  | Some original_nickname =>
      (* [self.original_nicknames.pop(user_id)] *)
      modify (set_ledger (delete user_id)) ;;
      try_except
        (member' ← edit member
           (if negb (String.eqb original_nickname (Member.name member))
            then Some original_nickname else None) a;
         log INFO (Restored user_id original_nickname) ;;
         ret member')
        (λ e, match e with
              | Forbidden => log WARNING (NoPermissionToRestore user_id) ;; ret member
              | _ => log ERROR (ErrorOnLeave user_id e) ;; ret member
              end)
  end.

End bot_py.

(** ** Sample data *)

Module Sample.

(** Guild 10, owned by user 500, with the two templates of the
    specification's scenario. *)
Definition pool : Database :=
  mkDatabase true
    [Guild.mk 10 "Lab" 500]
    [Nickname.mk 1 10 "Subject" true 500; Nickname.mk 2 10 "Operator" true 500]
    3.

(** A bot with a reachable store and an empty ledger. *)
Definition online : World := mkWorld ∅ (Some pool) [] [] [].

(** User 1 of guild 10, account name [alice], no override. *)
Definition alice : Member.t := Member.mk 1 "alice" None false 10.

(** The same user while substituted. *)
Definition alice_substituted : Member.t := Member.mk 1 "alice" (Some "Subject") false 10.

(** User 2, account name [alice] with the global display name [Alice G],
    whose override in guild 10 spells the account name. *)
Definition alias : Member.t :=
  Member.make 2 "alice" (Some "Alice G") (Some "alice") false 10.

(** A bot that tracks user 1 with the given original identity. *)
Definition tracking (original : string) : World :=
  mkWorld {[ 1 := original ]} (Some pool) [] [] [].

End Sample.

(** ** The shape of a generated identity *)

(** A template text, a space, and a number of 001..999 written with three
    digits. *)
Definition identity_shape (s : string) : Prop :=
  ∃ (template : string) (n : Z),
    1 ≤ n ≤ 999 ∧ s = template +:+ " " +:+ Py.fmt_03d n.

(** Does the string contain a space? *)
Fixpoint has_space (s : string) : bool :=
  match s with
  | EmptyString => false
  | String c s' => Ascii.eqb c " " || has_space s'
  end.

(** The request a leave or a manual restore sends for a stored original:
    the original itself, or a clear when it equals the account name. *)
Definition restore_request (member : Member.t) (original : string) : request :=
  (Member.id member,
   if String.eqb original (Member.name member) then None else Some original).

(** ** The listing of a guild's entries ([models.py]) *)

Section Listing.

(** [ORDER BY nickname] sorts by the collation of the column, which belongs
    to the engine and its locale: it is a parameter here. *)
Context (collate : relation string) `{∀ x y, Decision (collate x y)}.

Definition get_guild_nicknames (guild_id : Z) : M Database (list Nickname.t) :=
  DatabaseManager.execute ;;
  rows ← gets (λ db, List.filter (DatabaseManager.active_in guild_id) (nicknames db));
  ret (merge_sort (λ a b, collate (Nickname.nickname a) (Nickname.nickname b)) rows).

End Listing.

(** A collation to run the listing with: texts compared code point by code
    point, as the collation [C] does. *)
Definition by_code_point : relation string := λ a b, String.leb a b = true.

#[global] Instance by_code_point_dec (a b : string) : Decision (by_code_point a b) :=
  decide (String.leb a b = true).

(** ** The restore command of [bot_final.py] *)

Module bot_final.

(** Word for word the command of [bot_working.py], without its first
    check. *)
Definition restore_command (interaction : Interaction.t) (member : option Member.t)
    (a : answer) : M World (option Member.t) :=
  try_except
    (let target_member :=
       match member with
       | Some m => Some m
       | None =>
           match Interaction.user interaction with
           | Interaction.IsMember m => Some m
           | Interaction.IsUser id => Interaction.guild_members interaction !! id
           end
       end in
     match target_member with
     | None => send_message MemberNotFound ;; ret None
     | Some target_member =>
         stored ← gets (λ w, original_nicknames w !! Member.id target_member);
         match stored with
         | Some original_nick =>
             target' ←
               (if negb (String.eqb original_nick (Member.name target_member))
                then edit target_member (Some original_nick) a
                else edit target_member None a);
             modify (set_ledger (delete (Member.id target_member))) ;;
             send_message (RestoredTo (Member.id target_member) original_nick) ;;
             log INFO (ManuallyRestored (Member.id target_member)) ;;
             ret (Some target')
         | None =>
             send_message (NoStoredNickname (Member.id target_member)) ;;
             ret (Some target_member)
         end
     end)
    (λ e, match e with
          | Forbidden => send_message NoPermission ;; ret None
          | _ => log ERROR (ErrorInRestore e) ;; send_message ErrorRestoring ;; ret None
          end).

End bot_final.

(** ** Guild registration and the pool commands of [bot_working.py] *)

(** A guild as the platform reports it; the owner may be unknown. *)
Module PlatformGuild.
Record t := mk { id : Z; name : string; owner_id : option Z }.

(** [guild.owner_id or 0] *)
Definition owner_or_0 (g : t) : Z :=
  match owner_id g with
  | Some o => if o =? 0 then 0 else o
  | None => 0
  end.
End PlatformGuild.

(** What the pool commands answer. *)
Inductive command_reply :=
  | DatabaseNotAvailable                 (* Database not available. *)
  | OwnerOnlyCommand                     (* Only the server owner can use this command. *)
  | AddedNickname (nickname : string)    (* Added nickname: `..` *)
  | AlreadyExists (given : string)       (* Nickname `..` already exists. *)
  | ErrorAdding                          (* Error adding nickname. *)
  | OwnerOnlyRemove                      (* Only the server owner can remove nicknames. *)
  | RemoveSucceeded (message : string)   (* the store's message, after a check mark *)
  | RemoveFailed (message : string)      (* the store's message, after a cross *)
  | ErrorRemoving.                       (* Error removing nickname. *)

(** What the registration handlers and the pool commands log. *)
Inductive command_log :=
  | ConnectedToDiscord                          (* .. has connected to Discord! *)
  | InGuilds (n : nat)                          (* Bot is in .. guilds *)
  | RegisteredGuild (guild_id : Z)              (* Registered guild: .. (ID: ..) *)
  | FailedToRegister (guild_id : Z) (e : exn)   (* Failed to register guild ..: e *)
  | JoinedNewGuild (guild_id : Z)               (* Joined new guild: .. (ID: ..) *)
  | FailedToRegisterNew (guild_id : Z) (e : exn) (* Failed to register new guild ..: e *)
  | AddedToGuild (nickname : string) (guild_id : Z)    (* Added nickname '..' to guild .. *)
  | ErrorAddingNickname (e : exn)               (* Error adding nickname: e *)
  | RemovedFromGuild (given : string) (guild_id : Z)   (* Removed nickname '..' from guild .. *)
  | ErrorRemovingNickname (e : exn).            (* Error removing nickname: e *)

(** The bot together with the replies and the log lines of these handlers,
    each list oldest first. *)
Record Shell := mkShell {
  shell_bot : World;
  command_replies : list command_reply;
  command_logs : list (level * command_log)
}.

Definition on_bot {A} (m : M World A) : M Shell A :=
  λ s, let '(r, w) := m (shell_bot s) in
       (r, mkShell w (command_replies s) (command_logs s)).

Definition respond (r : command_reply) : M Shell unit :=
  modify (λ s, mkShell (shell_bot s) (command_replies s ++ [r]) (command_logs s)).

Definition note (l : level) (m : command_log) : M Shell unit :=
  modify (λ s, mkShell (shell_bot s) (command_replies s) (command_logs s ++ [(l, m)])).

(** A command invocation: the interaction and the identifier of the guild
    it was issued in ([interaction.guild.id]). *)
Record Invocation := mkInvocation {
  interaction : Interaction.t;
  in_guild : Z
}.

Definition issued_by_owner (i : Interaction.t) : bool :=
  bool_decide (Some (Interaction.issuer_id (Interaction.user i))
               = Interaction.guild_owner_id i).

Module bot_working_commands.

Definition on_guild_join (guild : PlatformGuild.t) : M Shell unit :=
  self_db ← on_bot (gets db);
  match self_db with
  | Some _ =>
      try_except
        (on_bot (on_db (DatabaseManager.ensure_guild_exists (PlatformGuild.id guild)
                          (PlatformGuild.name guild) (PlatformGuild.owner_or_0 guild))) ;;
         note INFO (JoinedNewGuild (PlatformGuild.id guild)))
        (λ e, note ERROR (FailedToRegisterNew (PlatformGuild.id guild) e))
  | None => ret tt
  end.

(** The registration loop of [on_ready] over [self.guilds]. *)
Fixpoint register_guilds (guilds : list PlatformGuild.t) : M Shell unit :=
  match guilds with
  | [] => ret tt
  | guild :: rest =>
      try_except
        (on_bot (on_db (DatabaseManager.ensure_guild_exists (PlatformGuild.id guild)
                          (PlatformGuild.name guild) (PlatformGuild.owner_or_0 guild))) ;;
         note INFO (RegisteredGuild (PlatformGuild.id guild)))
        (λ e, note ERROR (FailedToRegister (PlatformGuild.id guild) e)) ;;
      register_guilds rest
  end.

Definition on_ready (guilds : list PlatformGuild.t) : M Shell unit :=
  note INFO ConnectedToDiscord ;;
  note INFO (InGuilds (List.length guilds)) ;;
  self_db ← on_bot (gets db);
  match self_db with
  | Some _ => register_guilds guilds
  | None => ret tt
  end.

Definition add_nickname_command (inv : Invocation) (nickname : string) : M Shell unit :=
  try_except
    (self_db ← on_bot (gets db);
     match self_db with
     | None => respond DatabaseNotAvailable
     | Some _ =>
         if negb (issued_by_owner (interaction inv)) then respond OwnerOnlyCommand
         else
           result ← on_bot (on_db (DatabaseManager.add_nickname (in_guild inv) nickname
                      (Interaction.issuer_id (Interaction.user (interaction inv)))));
           match result with
           | Some result =>
               respond (AddedNickname (Nickname.nickname result)) ;;
               note INFO (AddedToGuild (Nickname.nickname result) (in_guild inv))
           | None => respond (AlreadyExists nickname)
           end
     end)
    (λ e, note ERROR (ErrorAddingNickname e) ;; respond ErrorAdding).

Definition remove_nickname_command (inv : Invocation) (nickname : string) : M Shell unit :=
  try_except
    (self_db ← on_bot (gets db);
     match self_db with
     | None => respond DatabaseNotAvailable
     | Some _ =>
         if negb (issued_by_owner (interaction inv)) then respond OwnerOnlyRemove
         else
           outcome ← on_bot (on_db (DatabaseManager.remove_nickname
                      (in_guild inv) nickname
                      (Interaction.issuer_id (Interaction.user (interaction inv)))));
           let '(success, message) := outcome in
           if (success : bool)
           then (respond (RemoveSucceeded message) ;;
                 note INFO (RemovedFromGuild nickname (in_guild inv)))
           else respond (RemoveFailed message)
     end)
    (λ e, note ERROR (ErrorRemovingNickname e) ;; respond ErrorRemoving).

End bot_working_commands.

(** ** Whitespace at the ends of a string *)

Definition starts_with_space (s : string) : bool :=
  match s with
  | EmptyString => false
  | String c _ => Py.isspace c
  end.

Fixpoint ends_with_space (s : string) : bool :=
  match s with
  | EmptyString => false
  | String c EmptyString => Py.isspace c
  | String _ s' => ends_with_space s'
  end.

(** * Properties *)

(** ** Strings *)

Lemma has_space_app (a b : string) :
  has_space (a +:+ b) = has_space a || has_space b.
Proof.
  induction a as [|c a IH]; simpl; [reflexivity|].
  rewrite IH. apply orb_assoc.
Qed.

(** A string of the generated shape contains a space. *)
Lemma identity_shape_has_space (s : string) :
  identity_shape s → has_space s = true.
Proof.
  intros (template & n & _ & ->).
  rewrite has_space_app. simpl. apply orb_true_r.
Qed.

(** Within 1..999 the counter is written with exactly three characters. *)
Lemma fmt_03d_length (n : Z) : 1 ≤ n ≤ 999 → String.length (Py.fmt_03d n) = 3%nat.
Proof.
  intros Hn.
  assert (H : ∃ k : nat, (k < 999)%nat ∧ n = Z.of_nat (S k)).
  { exists (Z.to_nat (n - 1)). split; lia. }
  destruct H as (k & Hk & ->). revert Hk.
  assert (G : ∀ b k : nat, (k < b)%nat →
     forallb (λ j, (String.length (Py.fmt_03d (Z.of_nat (S j))) =? 3)%nat) (seq 0 b) = true →
     String.length (Py.fmt_03d (Z.of_nat (S k))) = 3%nat).
  { intros b j Hj Hall. rewrite forallb_forall in Hall.
    apply Nat.eqb_eq, Hall, in_seq. lia. }
  intros Hk. apply (G 999%nat k Hk). vm_compute. reflexivity.
Qed.

(** ** The identity generator *)

Lemma no_nickname_formats : Config.BOT_CONFIG !! "nickname_formats" = None.
Proof. vm_compute. reflexivity. Qed.

(** With a reachable store the generator hands out the template of the row
    the store picked, as it stands. *)
Lemma generate_nickname_from_store (w : World) (d : Database) (g : Z) (dr : draws)
    (n : Nickname.t) :
  db w = Some d →
  up d = true →
  List.filter (DatabaseManager.active_in g) (nicknames d)
    !! (row dr mod List.length (List.filter (DatabaseManager.active_in g) (nicknames d)))%nat
    = Some n →
  Py.truthy (Nickname.nickname n) = true →
  generate_nickname g dr w = (Ok (Nickname.nickname n), w).
Proof.
  intros Hdb Hup Hrow Htruthy. destruct w as [ledger odb lg rq rp]. simpl in Hdb. subst odb.
  destruct d as [u gs ns k]. simpl in Hup, Hrow. subst u.
  unfold generate_nickname, try_except, bind, gets, on_db,
    DatabaseManager.get_random_nickname, DatabaseManager.execute, bind, gets, ret.
  simpl. rewrite Hrow. simpl. rewrite Htruthy. reflexivity.
Qed.

(** Without an active entry for the guild the generator reaches its
    fallback, which looks up a key that [BOT_CONFIG] does not have. *)
Lemma generate_nickname_no_active_entry (w : World) (d : Database) (g : Z) (dr : draws) :
  db w = Some d →
  up d = true →
  List.filter (DatabaseManager.active_in g) (nicknames d) = [] →
  generate_nickname g dr w
  = (Raise (KeyError "nickname_formats"),
     mkWorld (original_nicknames w) (db w)
       (logger w ++ [(WARNING, NoNicknamesAvailable g)]) (requests w) (replies w)).
Proof.
  intros Hdb Hup Hrows. destruct w as [ledger odb lg rq rp]. simpl in Hdb. subst odb.
  destruct d as [u gs ns k]. simpl in Hup, Hrows. subst u.
  unfold generate_nickname, try_except, bind, gets, on_db,
    DatabaseManager.get_random_nickname, DatabaseManager.execute, bind, gets, ret.
  simpl. rewrite Hrows. simpl.
  unfold subscript. rewrite no_nickname_formats. reflexivity.
Qed.

(** The generator never touches the ledger, the request trace or the
    replies. *)
Lemma generate_nickname_frame (g : Z) (dr : draws) (w : World) :
  let w' := snd (generate_nickname g dr w) in
  original_nicknames w' = original_nicknames w
  ∧ requests w' = requests w
  ∧ replies w' = replies w.
Proof.
  destruct w as [ledger odb lg rq rp].
  unfold generate_nickname, try_except, bind, gets, on_db,
    DatabaseManager.get_random_nickname, DatabaseManager.execute, bind, gets, ret,
    subscript, log, modify, raise.
  rewrite no_nickname_formats. simpl.
  destruct odb as [[[] gs ns k]|]; simpl; auto.
  destruct (List.filter _ ns !! _) as [n|]; simpl; auto.
  destruct (Py.truthy (Nickname.nickname n)); simpl; auto.
Qed.

Lemma active_rows_of_pool :
  List.filter (DatabaseManager.active_in 10) (nicknames Sample.pool)
  = [Nickname.mk 1 10 "Subject" true 500; Nickname.mk 2 10 "Operator" true 500].
Proof. reflexivity. Qed.

(** C1 (defect): in a guild whose store holds the active templates
    [Subject] and [Operator], every call of [generate_nickname] returns one
    of the two templates as it stands, without the space and the three-digit
    counter; the result is not of the shape "template NNN". *)
Theorem store_identity_is_bare_template (dr : draws) :
  ∃ s : string,
    generate_nickname 10 dr Sample.online = (Ok s, Sample.online)
    ∧ (s = "Subject" ∨ s = "Operator")
    ∧ ¬ identity_shape s.
Proof.
  pose proof (Nat.mod_upper_bound (row dr) 2 ltac:(lia)) as Hlt.
  destruct (row dr mod 2)%nat as [|[|i]] eqn:Hi; [| |lia].
  - exists "Subject". split; [|split; [by left|]].
    + apply (generate_nickname_from_store Sample.online Sample.pool 10 dr
               (Nickname.mk 1 10 "Subject" true 500)); try reflexivity.
      rewrite active_rows_of_pool. cbn [List.length]. rewrite Hi. reflexivity.
    + intros H. apply identity_shape_has_space in H. discriminate H.
  - exists "Operator". split; [|split; [by right|]].
    + apply (generate_nickname_from_store Sample.online Sample.pool 10 dr
               (Nickname.mk 2 10 "Operator" true 500)); try reflexivity.
      rewrite active_rows_of_pool. cbn [List.length]. rewrite Hi. reflexivity.
    + intros H. apply identity_shape_has_space in H. discriminate H.
Qed.

(** Without a database object the generator goes straight to the fallback. *)
Lemma generate_nickname_without_db (g : Z) (dr : draws) (ledger : gmap Z string)
    (lg : list (level * log_msg)) (rq : list request) (rp : list reply) :
  generate_nickname g dr (mkWorld ledger None lg rq rp)
  = (Raise (KeyError "nickname_formats"), mkWorld ledger None lg rq rp).
Proof.
  unfold generate_nickname, try_except, bind, gets, ret, subscript.
  rewrite no_nickname_formats. reflexivity.
Qed.

(** C2 (defect): whenever the generator has to fall back (no database
    object, an unreachable store, a store without entries) it raises
    [KeyError('nickname_formats')] instead of returning an identity: the
    fallback list is not an entry of [BOT_CONFIG]. *)
Theorem fallback_raises_key_error (g : Z) (dr : draws) (ledger : gmap Z string)
    (lg : list (level * log_msg)) (rq : list request) (rp : list reply)
    (gs : list Guild.t) (ns : list Nickname.t) (k : Z) :
  generate_nickname g dr (mkWorld ledger None lg rq rp)
  = (Raise (KeyError "nickname_formats"), mkWorld ledger None lg rq rp)
  ∧ generate_nickname g dr (mkWorld ledger (Some (mkDatabase false gs ns k)) lg rq rp)
    = (Raise (KeyError "nickname_formats"),
       mkWorld ledger (Some (mkDatabase false gs ns k))
         (lg ++ [(ERROR, ErrorGenerating g OperationalError)]) rq rp)
  ∧ generate_nickname g dr (mkWorld ledger (Some (mkDatabase true gs [] k)) lg rq rp)
    = (Raise (KeyError "nickname_formats"),
       mkWorld ledger (Some (mkDatabase true gs [] k))
         (lg ++ [(WARNING, NoNicknamesAvailable g)]) rq rp).
Proof.
  unfold generate_nickname, try_except, bind, gets, on_db,
    DatabaseManager.get_random_nickname, DatabaseManager.execute, bind, gets, ret,
    subscript, log, modify, raise.
  rewrite no_nickname_formats. simpl. auto.
Qed.

(** What that means for a join while the store is away: the record is
    created, the exception is logged, and no identity is applied. *)
Example join_without_store (dr : draws) (a : answer) :
  bot_working.handle_voice_join Sample.alice dr a (mkWorld ∅ None [] [] [])
  = (Ok Sample.alice,
     mkWorld {[ 1 := "alice" ]} None
       [(ERROR, ErrorOnJoin 1 (KeyError "nickname_formats"))] [] []).
Proof.
  unfold bot_working.handle_voice_join, try_except, bind, modify, set_ledger.
  cbn [original_nicknames db logger requests replies Member.guild_id Member.id Sample.alice].
  rewrite generate_nickname_without_db. reflexivity.
Qed.

(** ** The presence tracker of [bot_working.py] *)


(** A leave of a tracked member: the request that goes out, and what is
    left behind for each answer of the platform. *)
Lemma leave_tracked (w : World) (member : Member.t) (a : answer) (original : string) :
  original_nicknames w !! Member.id member = Some original →
  bot_working.handle_voice_leave member a w
  = match a with
    | Accepted =>
        (Ok (Member.with_nick member (snd (restore_request member original))),
         mkWorld (delete (Member.id member) (original_nicknames w)) (db w)
           (logger w ++ [(INFO, Restored (Member.id member) original)])
           (requests w ++ [restore_request member original]) (replies w))
    | Refused =>
        (Ok member,
         mkWorld (original_nicknames w) (db w)
           (logger w ++ [(WARNING, NoPermissionToRestore (Member.id member))])
           (requests w ++ [restore_request member original]) (replies w))
    | Broken =>
        (Ok member,
         mkWorld (original_nicknames w) (db w)
           (logger w ++ [(ERROR, ErrorOnLeave (Member.id member) HTTPException)])
           (requests w ++ [restore_request member original]) (replies w))
    end.
Proof.
  intros Hrec.
  unfold bot_working.handle_voice_leave, try_except, bind, gets, restore_request.
  rewrite Hrec.
  destruct (String.eqb original (Member.name member)); destruct a; reflexivity.
Qed.

(** A leave of a member without a record does nothing at all. *)
Lemma leave_untracked (w : World) (member : Member.t) (a : answer) :
  original_nicknames w !! Member.id member = None →
  bot_working.handle_voice_leave member a w = (Ok member, w).
Proof.
  intros Hrec.
  unfold bot_working.handle_voice_leave, try_except, bind, gets.
  rewrite Hrec. reflexivity.
Qed.





(** What the two handlers leave behind on that input. *)
Example round_trip_of_alias :
  let '(r, w2) :=
    (m1 ← bot_working.handle_voice_join Sample.alias (mkDraws 0 0 0) Accepted;
     bot_working.handle_voice_leave m1 Accepted) Sample.online in
  r = Ok (Member.make 2 "alice" (Some "Alice G") None false 10)
  ∧ requests w2 = [(2, Some "Subject"); (2, None)]
  ∧ Member.display_name Sample.alias = "alice"
  ∧ Member.display_name (Member.make 2 "alice" (Some "Alice G") None false 10) = "Alice G".
Proof. vm_compute. auto. Qed.

(** C4 (defect): a second join of a tracked user is not a no-op in
    [bot_working.py].  User 1, display name [alice], joins twice; the second
    join stores the substitute [Subject] as the original, calls the generator
    again and sends a second request. *)
Theorem second_join_recaptures :
  let '(r, w2) :=
    (m1 ← bot_working.handle_voice_join Sample.alice (mkDraws 0 0 0) Accepted;
     bot_working.handle_voice_join m1 (mkDraws 1 0 0) Accepted) Sample.online in
  r = Ok (Member.mk 1 "alice" (Some "Operator") false 10)
  ∧ original_nicknames w2 !! 1 = Some "Subject"
  ∧ requests w2 = [(1, Some "Subject"); (1, Some "Operator")].
Proof. vm_compute. auto. Qed.

(** The leave that follows then "restores" the substitute, not [alice]. *)
Example leave_after_double_join :
  let '(r, w3) :=
    (m1 ← bot_working.handle_voice_join Sample.alice (mkDraws 0 0 0) Accepted;
     m2 ← bot_working.handle_voice_join m1 (mkDraws 1 0 0) Accepted;
     bot_working.handle_voice_leave m2 Accepted) Sample.online in
  (Member.display_name <$> (match r with Ok m => Some m | Raise _ => None end))
  = Some "Subject".
Proof. vm_compute. reflexivity. Qed.

(** C5 (defect): when the platform refuses the restore on leave,
    [bot_working.py] skips the removal of the record.  User 1 is tracked with
    original [Alice]; after the refused leave the record is still there. *)
Theorem refused_leave_keeps_record :
  let '(r, w') :=
    bot_working.handle_voice_leave Sample.alice_substituted Refused
      (Sample.tracking "Alice") in
  r = Ok Sample.alice_substituted
  ∧ original_nicknames w' !! 1 = Some "Alice"
  ∧ requests w' = [(1, Some "Alice")]
  ∧ logger w' = [(WARNING, NoPermissionToRestore 1)].
Proof. vm_compute. auto. Qed.

(** In general: unless the platform accepts the request, a leave of
    [bot_working.py] leaves the ledger as it was. *)
Lemma failed_leave_keeps_ledger (w : World) (member : Member.t) (a : answer) :
  a ≠ Accepted →
  original_nicknames (snd (bot_working.handle_voice_leave member a w))
  = original_nicknames w.
Proof.
  intros Ha.
  destruct (original_nicknames w !! Member.id member) as [o|] eqn:Hrec.
  - rewrite (leave_tracked _ _ _ _ Hrec). destruct a; [contradiction| |]; reflexivity.
  - rewrite (leave_untracked _ _ _ Hrec). reflexivity.
Qed.

(** C6 (defect): the same skipped removal, on the clear-override path and
    with a failure other than a refusal.  User 1 is tracked with an original
    equal to the account name; the leave sends the clear request, the
    request fails, and the record stays. *)
Theorem failed_leave_record_not_removed :
  let '(r, w') :=
    bot_working.handle_voice_leave Sample.alice_substituted Broken
      (Sample.tracking "alice") in
  r = Ok Sample.alice_substituted
  ∧ requests w' = [(1, None)]
  ∧ original_nicknames w' !! 1 = Some "alice".
Proof. vm_compute. auto. Qed.

(** When the platform accepts the request, the leave does what the
    specification says: the record is removed and the request restores the
    original, or clears the override when the original is the account
    name. *)
Lemma accepted_leave_removes_record (w : World) (member : Member.t) (original : string) :
  original_nicknames w !! Member.id member = Some original →
  let w' := snd (bot_working.handle_voice_leave member Accepted w) in
  original_nicknames w' !! Member.id member = None
  ∧ requests w'
    = (requests w ++ [(Member.id member,
                      if String.eqb original (Member.name member)
                      then None else Some original)])%list.
Proof.
  intros Hrec. rewrite (leave_tracked _ _ _ _ Hrec). simpl.
  split; [apply lookup_delete_eq | reflexivity].
Qed.

(** C10: the restore command of [bot_working.py] turns away every issuer
    who is not the owner of the guild: the only effect is the owner-only
    reply; no request is sent and the ledger, whatever it holds, is not
    touched. *)
Theorem restore_rejects_non_owner (w : World) (interaction : Interaction.t)
    (member : option Member.t) (a : answer) :
  Some (Interaction.issuer_id (Interaction.user interaction))
    ≠ Interaction.guild_owner_id interaction →
  bot_working.restore_command interaction member a w
  = (Ok None,
     mkWorld (original_nicknames w) (db w) (logger w) (requests w)
       (replies w ++ [OwnerOnly])).
Proof.
  intros Hne. unfold bot_working.restore_command, try_except, bind.
  rewrite bool_decide_eq_false_2 by exact Hne. reflexivity.
Qed.

Lemma restore_rejects_non_owner_witness :
  Some (Interaction.issuer_id (Interaction.IsMember Sample.alice_substituted)) ≠ Some 500
  ∧ bot_working.restore_command
      (Interaction.mk (Interaction.IsMember Sample.alice_substituted) (Some 500) ∅)
      None Accepted (Sample.tracking "Alice")
    = (Ok None, mkWorld {[ 1 := "Alice" ]} (Some Sample.pool) [] [] [OwnerOnly]).
Proof.
  assert (H : Some (Interaction.issuer_id (Interaction.IsMember Sample.alice_substituted))
              ≠ Some 500) by (simpl; congruence).
  split; [exact H|].
  exact (restore_rejects_non_owner (Sample.tracking "Alice")
           (Interaction.mk (Interaction.IsMember Sample.alice_substituted) (Some 500) ∅)
           None Accepted H).
Defined.

(** The owner, on the other hand, gets the restore of a tracked member. *)
Example restore_by_owner :
  bot_working.restore_command
    (Interaction.mk (Interaction.IsUser 500) (Some 500) ∅)
    (Some Sample.alice_substituted) Accepted (Sample.tracking "Alice")
  = (Ok (Some (Member.mk 1 "alice" (Some "Alice") false 10)),
     mkWorld ∅ (Some Sample.pool) [(INFO, ManuallyRestored 1)]
       [(1, Some "Alice")] [RestoredTo 1 "Alice"]).
Proof. vm_compute. reflexivity. Qed.

(** ** The presence tracker of [bot.py] *)


(** The sibling variant pops the record before it sends the request: the
    record is gone whatever the platform answers. *)
Lemma bot_py_leave_removes_record (w : World) (member : Member.t) (a : answer) :
  original_nicknames (snd (bot_py.handle_voice_leave member a w)) !! Member.id member
  = None.
Proof.
  unfold bot_py.handle_voice_leave, bind, gets, try_except.
  destruct (original_nicknames w !! Member.id member) as [o|] eqn:Hrec.
  - destruct a; simpl; apply lookup_delete_eq.
  - simpl. exact Hrec.
Qed.

(** ** Which events reach the tracker *)

(** Events about automated participants are dropped. *)
Lemma bots_are_ignored (member : Member.t) (before after : VoiceState) (dr : draws)
    (a : answer) (w : World) :
  Member.bot member = true →
  bot_working.on_voice_state_update member before after dr a w = (Ok member, w).
Proof.
  intros Hbot. unfold bot_working.on_voice_state_update. rewrite Hbot. reflexivity.
Qed.

(** A move between two channels, or a change while absent, is neither a join
    nor a leave. *)
Lemma no_edge_no_transition (member : Member.t) (before after : VoiceState) (dr : draws)
    (a : answer) (w : World) :
  is_Some (channel before) ↔ is_Some (channel after) →
  bot_working.on_voice_state_update member before after dr a w = (Ok member, w).
Proof.
  intros Hsame. unfold bot_working.on_voice_state_update.
  destruct (Member.bot member); [reflexivity|].
  destruct (channel before) as [b|], (channel after) as [c|]; try reflexivity.
  - destruct Hsame as [H _]. destruct (H (ex_intro _ b eq_refl)) as [? ?]. discriminate.
  - destruct Hsame as [_ H]. destruct (H (ex_intro _ c eq_refl)) as [? ?]. discriminate.
Qed.

(** ** The nickname pool store *)

Lemma matches_spec (g : Z) (pattern : string) (n : Nickname.t) :
  DatabaseManager.matches g pattern n = true
  ↔ Nickname.guild_id n = g
    ∧ Sql.ilike (Nickname.nickname n) pattern = true
    ∧ Nickname.is_active n = true.
Proof.
  unfold DatabaseManager.matches.
  rewrite !andb_true_iff, Z.eqb_eq. tauto.
Qed.

(** For a text without [%], [_] and backslash, matching as a pattern is
    equality up to letter case. *)
Lemma like_ci_plain (pat s : list ascii) :
  forallb Sql.plain pat = true →
  Sql.like_ci pat s = Sql.eq_ci (string_of_list_ascii s) (string_of_list_ascii pat).
Proof.
  revert s. induction pat as [|p pat IH]; intros s Hplain.
  - destruct s; reflexivity.
  - simpl in Hplain. apply andb_true_iff in Hplain as [Hp Hpat].
    unfold Sql.plain in Hp. rewrite !negb_true_iff, !orb_false_iff in Hp.
    destruct Hp as [[Hp1 Hp2] Hp3].
    simpl. rewrite Hp1, Hp2, Hp3.
    destruct s as [|c s]; [reflexivity|]. simpl.
    rewrite IH by exact Hpat.
    f_equal. unfold Sql.ceqb. apply Ascii.eqb_sym.
Qed.

Lemma ilike_plain (value text : string) :
  forallb Sql.plain (list_ascii_of_string text) = true →
  Sql.ilike value text = Sql.eq_ci value text.
Proof.
  intros Hplain. unfold Sql.ilike. rewrite like_ci_plain by exact Hplain.
  rewrite !string_of_list_ascii_of_string. reflexivity.
Qed.

(** A text that is blank after trimming is turned away, whatever the state of
    the store. *)
Lemma add_nickname_blank (db : Database) (g : Z) (t : string) (c : Z) :
  Py.strip t = "" →
  DatabaseManager.add_nickname g t c db = (Ok None, db).
Proof.
  intros Hblank. unfold DatabaseManager.add_nickname. rewrite Hblank. reflexivity.
Qed.

(** A text that matches an active entry of the guild is reported as a
    duplicate and the store is left alone. *)
Lemma add_nickname_existing (db : Database) (g : Z) (t : string) (c : Z) (n : Nickname.t) :
  up db = true →
  List.find (DatabaseManager.matches g (Py.strip t)) (nicknames db) = Some n →
  DatabaseManager.add_nickname g t c db = (Ok None, db).
Proof.
  intros Hup Hfind. unfold DatabaseManager.add_nickname.
  destruct (Py.truthy (Py.strip t)); [|reflexivity]. simpl.
  unfold DatabaseManager.query_nickname, DatabaseManager.execute, bind, gets.
  rewrite Hup, Hfind. reflexivity.
Qed.

(** Otherwise, when the engine takes the row (a text of at most 50
    characters, a registered guild), one active row with the trimmed text is
    appended and returned. *)
Lemma add_nickname_fresh (db : Database) (g : Z) (t : string) (c : Z) :
  up db = true →
  Py.strip t ≠ "" →
  List.find (DatabaseManager.matches g (Py.strip t)) (nicknames db) = None →
  (String.length (Py.strip t) ≤ 50)%nat →
  existsb (λ x, Guild.id x =? g) (guilds db) = true →
  let new_nickname := Nickname.mk (next_id db) g (Py.strip t) true c in
  DatabaseManager.add_nickname g t c db
  = (Ok (Some new_nickname),
     mkDatabase true (guilds db) (nicknames db ++ [new_nickname]) (next_id db + 1)).
Proof.
  intros Hup Hne Hfind Hlen Hreg. unfold DatabaseManager.add_nickname.
  destruct (Py.strip t) as [|ch rest] eqn:Hs; [contradiction|].
  cbn [Py.truthy negb].
  unfold DatabaseManager.query_nickname, DatabaseManager.insert_nickname,
    DatabaseManager.execute, bind, gets, modify, ret, raise.
  rewrite Hup, Hfind. cbn [fst snd]. rewrite Hup, Hreg.
  apply Nat.ltb_ge in Hlen. rewrite Hlen. cbn. rewrite !Hup. reflexivity.
Qed.

(** A text of more than 50 characters, or a guild that was never registered,
    makes the engine refuse the row: [add_nickname] raises and the store is as
    it was. *)
Lemma add_nickname_refused (db : Database) (g : Z) (t : string) (c : Z) :
  up db = true →
  Py.strip t ≠ "" →
  List.find (DatabaseManager.matches g (Py.strip t)) (nicknames db) = None →
  (50 < String.length (Py.strip t))%nat
  ∨ existsb (λ x, Guild.id x =? g) (guilds db) = false →
  DatabaseManager.add_nickname g t c db
  = (Raise (if (50 <? String.length (Py.strip t))%nat then DataError else IntegrityError),
     db).
Proof.
  intros Hup Hne Hfind Hrefused. unfold DatabaseManager.add_nickname.
  destruct (Py.strip t) as [|ch rest] eqn:Hs; [contradiction|].
  cbn [Py.truthy negb].
  unfold DatabaseManager.query_nickname, DatabaseManager.insert_nickname,
    DatabaseManager.execute, bind, gets, modify, ret, raise.
  rewrite Hup, Hfind. cbn [fst snd]. rewrite Hup.
  destruct (50 <? String.length (String ch rest))%nat eqn:Hlen; [reflexivity|].
  destruct Hrefused as [Hlong|Hreg].
  - apply Nat.ltb_ge in Hlen. lia.
  - rewrite Hreg. reflexivity.
Qed.

(** The scenario of the specification: [Subject], then [subject]. *)
Example add_subject_twice :
  let db0 := mkDatabase true [Guild.mk 10 "Lab" 500] [] 1 in
  let '(r1, db1) := DatabaseManager.add_nickname 10 "Subject" 500 db0 in
  let '(r2, db2) := DatabaseManager.add_nickname 10 "subject" 500 db1 in
  r1 = Ok (Some (Nickname.mk 1 10 "Subject" true 500))
  ∧ r2 = Ok None
  ∧ db2 = db1.
Proof. vm_compute. auto. Qed.

(** C7 (defect): a text with a wildcard is reported as a duplicate although
    no active entry has that text.  With [Subject] and [Operator] active in
    guild 10, no active template equals [S%] up to letter case, and yet
    [add_nickname] answers [None] and inserts nothing. *)
Theorem add_nickname_wildcard_reported_duplicate :
  existsb (λ n, DatabaseManager.active_in 10 n && Sql.eq_ci (Nickname.nickname n) "S%")
    (nicknames Sample.pool) = false
  ∧ DatabaseManager.add_nickname 10 "S%" 500 Sample.pool = (Ok None, Sample.pool).
Proof. vm_compute. auto. Qed.

(** A requester who is not the owner is turned away and nothing changes. *)
Lemma remove_nickname_not_owner (db : Database) (g : Z) (t : string) (r : Z)
    (guild : Guild.t) :
  up db = true →
  List.find (λ x, Guild.id x =? g) (guilds db) = Some guild →
  Guild.owner_id guild ≠ r →
  DatabaseManager.remove_nickname g t r db
  = (Ok (false, "Only the server owner can remove nicknames"), db).
Proof.
  intros Hup Hguild Hne. unfold DatabaseManager.remove_nickname.
  unfold DatabaseManager.query_guild, DatabaseManager.execute, bind, gets.
  rewrite Hup, Hguild.
  apply Z.eqb_neq in Hne. rewrite Hne. reflexivity.
Qed.

(** No match for the owner's text: not found, nothing changes. *)
Lemma remove_nickname_no_match (db : Database) (g : Z) (t : string) (r : Z)
    (guild : Guild.t) :
  up db = true →
  List.find (λ x, Guild.id x =? g) (guilds db) = Some guild →
  Guild.owner_id guild = r →
  List.find (DatabaseManager.matches g (Py.strip t)) (nicknames db) = None →
  DatabaseManager.remove_nickname g t r db
  = (Ok (false, "Nickname '" +:+ Py.strip t +:+ "' not found"), db).
Proof.
  intros Hup Hguild Hown Hfind. unfold DatabaseManager.remove_nickname.
  unfold DatabaseManager.query_guild, DatabaseManager.query_nickname,
    DatabaseManager.execute, bind, gets.
  rewrite Hup, Hguild. apply Z.eqb_eq in Hown. rewrite Hown. simpl.
  rewrite Hup, Hfind. reflexivity.
Qed.

(** A match for the owner's text: the matched row is switched off. *)
Lemma remove_nickname_match (db : Database) (g : Z) (t : string) (r : Z)
    (guild : Guild.t) (n : Nickname.t) :
  up db = true →
  List.find (λ x, Guild.id x =? g) (guilds db) = Some guild →
  Guild.owner_id guild = r →
  List.find (DatabaseManager.matches g (Py.strip t)) (nicknames db) = Some n →
  DatabaseManager.remove_nickname g t r db
  = (Ok (true, "Nickname '" +:+ Py.strip t +:+ "' removed successfully"),
     mkDatabase true (guilds db)
       (map (DatabaseManager.soft_delete (Nickname.id n)) (nicknames db)) (next_id db)).
Proof.
  intros Hup Hguild Hown Hfind. unfold DatabaseManager.remove_nickname.
  unfold DatabaseManager.query_guild, DatabaseManager.query_nickname,
    DatabaseManager.execute, bind, gets, modify, ret.
  rewrite Hup, Hguild. apply Z.eqb_eq in Hown. rewrite Hown. simpl.
  rewrite Hup, Hfind. simpl. rewrite !Hup. reflexivity.
Qed.

(** Rows are never deleted: whatever the call does, the table keeps its rows,
    each with its identifier, guild, text and creator. *)
Lemma remove_nickname_keeps_rows (db : Database) (g : Z) (t : string) (r : Z) :
  let db' := snd (DatabaseManager.remove_nickname g t r db) in
  map (λ n, (Nickname.id n, Nickname.guild_id n, Nickname.nickname n, Nickname.created_by n))
    (nicknames db')
  = map (λ n, (Nickname.id n, Nickname.guild_id n, Nickname.nickname n, Nickname.created_by n))
      (nicknames db).
Proof.
  unfold DatabaseManager.remove_nickname.
  unfold DatabaseManager.query_guild, DatabaseManager.query_nickname,
    DatabaseManager.execute, bind, gets, modify, ret.
  destruct (up db) eqn:Hup; [|reflexivity]. simpl.
  destruct (List.find _ (guilds db)) as [guild|]; [|reflexivity].
  destruct (Guild.owner_id guild =? r); [|reflexivity]. simpl.
  rewrite Hup. simpl.
  destruct (List.find _ (nicknames db)) as [n|]; [|reflexivity]. simpl.
  rewrite Hup. simpl. rewrite map_map. apply map_ext. intros x.
  unfold DatabaseManager.soft_delete. destruct (Nickname.id x =? Nickname.id n); reflexivity.
Qed.

(** C8 (defect): an owner's text with a wildcard removes an entry that does
    not have that text.  With [Subject] and [Operator] active in guild 10 no
    active template equals [%] up to letter case, and yet [remove_nickname]
    reports success and switches [Subject] off. *)
Theorem remove_nickname_wildcard_removes_other :
  existsb (λ n, DatabaseManager.active_in 10 n && Sql.eq_ci (Nickname.nickname n) "%")
    (nicknames Sample.pool) = false
  ∧ DatabaseManager.remove_nickname 10 "%" 500 Sample.pool
    = (Ok (true, "Nickname '%' removed successfully"),
       mkDatabase true [Guild.mk 10 "Lab" 500]
         [Nickname.mk 1 10 "Subject" false 500; Nickname.mk 2 10 "Operator" true 500] 3).
Proof. vm_compute. auto. Qed.

(** C9: the trimmed text reaches [ILIKE] as a pattern.  Whenever the first
    active row of the guild that the text matches as a pattern is [n],
    [add_nickname] reports a duplicate and leaves the store alone, and
    [remove_nickname], called by the owner, switches row [n] off; nothing
    requires the text of [n] to equal the text given. *)
Theorem ilike_text_is_a_pattern (db : Database) (g : Z) (t : string) (c : Z)
    (n : Nickname.t) :
  up db = true →
  List.find (DatabaseManager.matches g (Py.strip t)) (nicknames db) = Some n →
  (Nickname.guild_id n = g
   ∧ Nickname.is_active n = true
   ∧ Sql.ilike (Nickname.nickname n) (Py.strip t) = true)
  ∧ DatabaseManager.add_nickname g t c db = (Ok None, db)
  ∧ ∀ guild : Guild.t,
      List.find (λ x, Guild.id x =? g) (guilds db) = Some guild →
      DatabaseManager.remove_nickname g t (Guild.owner_id guild) db
      = (Ok (true, "Nickname '" +:+ Py.strip t +:+ "' removed successfully"),
         mkDatabase true (guilds db)
           (map (DatabaseManager.soft_delete (Nickname.id n)) (nicknames db))
           (next_id db)).
Proof.
  intros Hup Hfind. split; [|split].
  - apply find_some in Hfind as [_ Hm]. apply matches_spec in Hm. tauto.
  - exact (add_nickname_existing db g t c n Hup Hfind).
  - intros guild Hguild.
    exact (remove_nickname_match db g t _ guild n Hup Hguild eq_refl Hfind).
Qed.

Lemma ilike_text_is_a_pattern_witness :
  Sql.eq_ci "Subject" "S%" = false
  ∧ Sql.ilike "Subject" "S%" = true
  ∧ DatabaseManager.add_nickname 10 " S% " 500 Sample.pool = (Ok None, Sample.pool)
  ∧ DatabaseManager.remove_nickname 10 " S% " 500 Sample.pool
    = (Ok (true, "Nickname 'S%' removed successfully"),
       mkDatabase true [Guild.mk 10 "Lab" 500]
         [Nickname.mk 1 10 "Subject" false 500; Nickname.mk 2 10 "Operator" true 500] 3).
Proof.
  destruct (ilike_text_is_a_pattern Sample.pool 10 " S% " 500
              (Nickname.mk 1 10 "Subject" true 500) eq_refl eq_refl)
    as ((_ & _ & Hlike) & Hadd & Hremove).
  split; [reflexivity|]. split; [exact Hlike|]. split; [exact Hadd|].
  exact (Hremove (Guild.mk 10 "Lab" 500) eq_refl).
Defined.

(** * Further properties of the store *)

Lemma find_app_first {A} (P : A → bool) (l1 l2 : list A) :
  List.find P (l1 ++ l2)
  = match List.find P l1 with Some x => Some x | None => List.find P l2 end.
Proof.
  induction l1 as [|x l1 IH]; simpl; [reflexivity|].
  destruct (P x); [reflexivity|exact IH].
Qed.

Lemma find_guild_replaced (new : Guild.t) (l : list Guild.t) (old : Guild.t) :
  List.find (λ x, Guild.id x =? Guild.id new) l = Some old →
  List.find (λ x, Guild.id x =? Guild.id new)
    (map (λ x, if Guild.id x =? Guild.id new then new else x) l) = Some new.
Proof.
  induction l as [|x l IH]; simpl; [discriminate|].
  destruct (Guild.id x =? Guild.id new) eqn:Hx.
  - intros _. simpl. rewrite Z.eqb_refl. reflexivity.
  - intros H. simpl. rewrite Hx. exact (IH H).
Qed.

Lemma find_guild_replaced_other (new : Guild.t) (g' : Z) (l : list Guild.t) :
  g' ≠ Guild.id new →
  List.find (λ x, Guild.id x =? g')
    (map (λ x, if Guild.id x =? Guild.id new then new else x) l)
  = List.find (λ x, Guild.id x =? g') l.
Proof.
  intros Hne. induction l as [|x l IH]; simpl; [reflexivity|].
  destruct (Guild.id x =? Guild.id new) eqn:Hx.
  - apply Z.eqb_eq in Hx.
    assert (H1 : (Guild.id new =? g') = false) by (apply Z.eqb_neq; congruence).
    assert (H2 : (Guild.id x =? g') = false) by (apply Z.eqb_neq; congruence).
    rewrite H1, H2. exact IH.
  - destruct (Guild.id x =? g'); [reflexivity|exact IH].
Qed.

(** What a registration does on a reachable store. *)
Lemma ensure_guild_exists_run (db : Database) (g : Z) (name : string) (o : Z) :
  up db = true →
  ∃ (r : detached Guild.t) (db' : Database),
    DatabaseManager.ensure_guild_exists g name o db = (Ok r, db')
    ∧ List.find (λ x, Guild.id x =? g) (guilds db') = Some (Guild.mk g name o)
    ∧ (∀ g', g' ≠ g →
         List.find (λ x, Guild.id x =? g') (guilds db')
         = List.find (λ x, Guild.id x =? g') (guilds db))
    ∧ up db' = true
    ∧ nicknames db' = nicknames db
    ∧ next_id db' = next_id db
    ∧ (List.find (λ x, Guild.id x =? g) (guilds db) = Some (Guild.mk g name o) →
       db' = db ∧ r = Loaded (Guild.mk g name o))
    ∧ (r = Loaded (Guild.mk g name o)
       ∨ r = Expired
         ∧ ∃ old, List.find (λ x, Guild.id x =? g) (guilds db) = Some old
                  ∧ old ≠ Guild.mk g name o).
Proof.
  intros Hup. destruct db as [u gs ns k]. simpl in Hup. subst u.
  unfold DatabaseManager.ensure_guild_exists, DatabaseManager.query_guild,
    DatabaseManager.execute, bind, gets, modify, ret. simpl.
  destruct (List.find (λ x, Guild.id x =? g) gs) as [old|] eqn:Hfind.
  - pose proof (find_some _ _ Hfind) as [_ Hid]. apply Z.eqb_eq in Hid.
    destruct old as [oid oname oowner]. simpl in Hid. subst oid. simpl.
    destruct (negb (String.eqb oname name) || negb (oowner =? o)) eqn:Hchanged; simpl.
    + assert (Hdiff : Guild.mk g oname oowner ≠ Guild.mk g name o).
      { intros Heq. inversion Heq; subst.
        rewrite String.eqb_refl, Z.eqb_refl in Hchanged. discriminate. }
      eexists _, _. split; [reflexivity|]. simpl.
      split; [exact (find_guild_replaced (Guild.mk g name o) gs _ Hfind)|].
      split; [intros g' Hg'; exact (find_guild_replaced_other (Guild.mk g name o) g' gs Hg')|].
      split; [reflexivity|]. split; [reflexivity|]. split; [reflexivity|].
      split; [intros Heq; exfalso; apply Hdiff; congruence|].
      right. split; [reflexivity|]. eauto.
    + apply orb_false_iff in Hchanged as [Hn Ho].
      apply negb_false_iff, String.eqb_eq in Hn. apply negb_false_iff, Z.eqb_eq in Ho.
      subst. eexists _, _. split; [reflexivity|]. simpl. auto 10.
  - simpl. eexists _, _. split; [reflexivity|]. simpl.
    split; [rewrite find_app_first, Hfind; simpl; rewrite Z.eqb_refl; reflexivity|].
    split.
    { intros g' Hg'. rewrite find_app_first.
      destruct (List.find (λ x, Guild.id x =? g') gs); [reflexivity|].
      simpl. assert (H : (g =? g') = false) by (apply Z.eqb_neq; congruence).
      rewrite H. reflexivity. }
    split; [reflexivity|]. split; [reflexivity|]. split; [reflexivity|].
    split; [discriminate|]. by left.
Qed.



(** The three paths on the sample store: a new guild and an unchanged one
    come back loaded, a changed one comes back expired. *)
Example ensure_guild_exists_paths :
  fst (DatabaseManager.ensure_guild_exists 11 "Annex" 501 Sample.pool)
  = Ok (Loaded (Guild.mk 11 "Annex" 501))
  ∧ fst (DatabaseManager.ensure_guild_exists 10 "Lab" 500 Sample.pool)
    = Ok (Loaded (Guild.mk 10 "Lab" 500))
  ∧ fst (DatabaseManager.ensure_guild_exists 10 "Lab" 777 Sample.pool) = Ok Expired.
Proof. vm_compute. auto. Qed.

(** X2: once a guild has been registered on a reachable store, registering
    it again with the same name and owner changes nothing in the store and
    hands back the row, loaded, whichever path the first call took. *)
Theorem ensure_guild_exists_idempotent (db : Database) (g : Z) (name : string) (o : Z) :
  up db = true →
  ∃ (r : detached Guild.t) (db' : Database),
    DatabaseManager.ensure_guild_exists g name o db = (Ok r, db')
    ∧ DatabaseManager.ensure_guild_exists g name o db'
      = (Ok (Loaded (Guild.mk g name o)), db').
Proof.
  intros Hup.
  destruct (ensure_guild_exists_run db g name o Hup)
    as (r & db' & Hrun & Hfind & _ & Hup' & _ & _ & _ & _).
  destruct (ensure_guild_exists_run db' g name o Hup')
    as (r' & db'' & Hrun' & _ & _ & _ & _ & _ & Hsame & _).
  exists r, db'. split; [exact Hrun|].
  destruct (Hsame Hfind) as [-> ->]. exact Hrun'.
Qed.

Lemma ensure_guild_exists_idempotent_witness :
  ∃ (r : detached Guild.t) (db' : Database),
    DatabaseManager.ensure_guild_exists 10 "Lab" 777 Sample.pool = (Ok r, db')
    ∧ DatabaseManager.ensure_guild_exists 10 "Lab" 777 db'
      = (Ok (Loaded (Guild.mk 10 "Lab" 777)), db').
Proof. exact (ensure_guild_exists_idempotent Sample.pool 10 "Lab" 777 eq_refl). Defined.

(** X3: a change of owner reported through a registration takes effect at
    once: whoever is not the new owner, the former owner included, is turned
    away by [remove_nickname], and no entry is switched off. *)
Theorem owner_change_takes_effect (db : Database) (g : Z) (name : string)
    (new_owner r : Z) (t : string) :
  up db = true →
  r ≠ new_owner →
  let db' := snd (DatabaseManager.ensure_guild_exists g name new_owner db) in
  DatabaseManager.remove_nickname g t r db'
  = (Ok (false, "Only the server owner can remove nicknames"), db')
  ∧ nicknames db' = nicknames db.
Proof.
  intros Hup Hne.
  destruct (ensure_guild_exists_run db g name new_owner Hup)
    as (r0 & db' & Hrun & Hfind & _ & Hup' & Hns & _ & _ & _).
  rewrite Hrun. simpl. split; [|exact Hns].
  apply (remove_nickname_not_owner db' g t r (Guild.mk g name new_owner) Hup' Hfind).
  simpl. congruence.
Qed.

Lemma owner_change_takes_effect_witness :
  let db' := snd (DatabaseManager.ensure_guild_exists 10 "Lab" 777 Sample.pool) in
  DatabaseManager.remove_nickname 10 "Subject" 500 db'
  = (Ok (false, "Only the server owner can remove nicknames"), db')
  ∧ nicknames db' = nicknames Sample.pool.
Proof.
  apply (owner_change_takes_effect Sample.pool 10 "Lab" 777 500 "Subject" eq_refl).
  lia.
Defined.

(** ** Drawing an entry *)

Lemma active_in_spec (g : Z) (n : Nickname.t) :
  DatabaseManager.active_in g n = true
  ↔ Nickname.guild_id n = g ∧ Nickname.is_active n = true.
Proof.
  unfold DatabaseManager.active_in. rewrite andb_true_iff, Z.eqb_eq. tauto.
Qed.

(** The draw on a reachable store, in one equation. *)
Lemma get_random_nickname_run (db : Database) (g : Z) (draw : nat) :
  up db = true →
  DatabaseManager.get_random_nickname g draw db
  = (Ok (Nickname.nickname <$>
           List.filter (DatabaseManager.active_in g) (nicknames db)
             !! (draw mod List.length
                   (List.filter (DatabaseManager.active_in g) (nicknames db)))%nat),
     db).
Proof.
  intros Hup.
  unfold DatabaseManager.get_random_nickname, DatabaseManager.execute, bind, gets, ret.
  rewrite Hup. reflexivity.
Qed.

(** X4: on a reachable store a draw for a guild comes back empty exactly
    when the guild has no active entry. *)
Theorem get_random_nickname_none_iff (db : Database) (g : Z) (draw : nat) :
  up db = true →
  fst (DatabaseManager.get_random_nickname g draw db) = Ok None
  ↔ ∀ n, n ∈ nicknames db → DatabaseManager.active_in g n = false.
Proof.
  intros Hup. rewrite (get_random_nickname_run db g draw Hup). simpl.
  set (rows := List.filter (DatabaseManager.active_in g) (nicknames db)).
  split.
  - intros Hnone n Hn.
    destruct (DatabaseManager.active_in g n) eqn:Hact; [|reflexivity]. exfalso.
    assert (Hin : In n rows) by (apply filter_In; split; [by apply list_elem_of_In|done]).
    assert (Hlen : (0 < List.length rows)%nat) by (destruct rows; [destruct Hin|simpl; lia]).
    pose proof (Nat.mod_upper_bound draw (List.length rows) ltac:(lia)) as Hlt.
    destruct (lookup_lt_is_Some_2 rows _ Hlt) as [x Hx].
    rewrite Hx in Hnone. discriminate.
  - intros Hall. assert (Hrows : rows = []).
    { destruct rows as [|x rows'] eqn:Hr; [reflexivity|]. exfalso.
      assert (Hin : In x (List.filter (DatabaseManager.active_in g) (nicknames db))).
      { fold rows. rewrite Hr. by left. }
      apply filter_In in Hin as [Hin Hact].
      rewrite (Hall x) in Hact; [discriminate|by apply list_elem_of_In]. }
    rewrite Hrows. reflexivity.
Qed.

Lemma get_random_nickname_none_iff_witness :
  fst (DatabaseManager.get_random_nickname 11 3 Sample.pool) = Ok None
  ↔ ∀ n, n ∈ nicknames Sample.pool → DatabaseManager.active_in 11 n = false.
Proof. exact (get_random_nickname_none_iff Sample.pool 11 3 eq_refl). Defined.

(** X5: whatever a draw returns is the text of an active entry of the
    guild asked for, and the draw leaves the store as it was. *)
Theorem get_random_nickname_member (db db' : Database) (g : Z) (draw : nat) (s : string) :
  DatabaseManager.get_random_nickname g draw db = (Ok (Some s), db') →
  db' = db
  ∧ ∃ n, n ∈ nicknames db
         ∧ Nickname.guild_id n = g
         ∧ Nickname.is_active n = true
         ∧ Nickname.nickname n = s.
Proof.
  unfold DatabaseManager.get_random_nickname, DatabaseManager.execute, bind, gets, ret.
  destruct (up db); [|discriminate]. simpl.
  destruct (List.filter _ _ !! _) as [n|] eqn:Hrow; [|discriminate]. simpl.
  intros Heq. inversion Heq; subst. split; [reflexivity|].
  exists n. apply list_elem_of_lookup_2, list_elem_of_In, filter_In in Hrow as [Hin Hact].
  apply active_in_spec in Hact as [Hg Ha].
  split; [by apply list_elem_of_In|]. auto.
Qed.

Lemma get_random_nickname_member_witness :
  Sample.pool = Sample.pool
  ∧ ∃ n, n ∈ nicknames Sample.pool
         ∧ Nickname.guild_id n = 10
         ∧ Nickname.is_active n = true
         ∧ Nickname.nickname n = "Operator".
Proof.
  exact (get_random_nickname_member Sample.pool Sample.pool 10 5 "Operator" eq_refl).
Defined.

(** An unreachable store answers every operation with the same exception and
    stays as it is. *)
Lemma unreachable_draw (db : Database) (g : Z) (draw : nat) :
  up db = false →
  DatabaseManager.get_random_nickname g draw db = (Raise OperationalError, db).
Proof.
  intros Hup.
  unfold DatabaseManager.get_random_nickname, DatabaseManager.execute, bind.
  rewrite Hup. reflexivity.
Qed.

(** ** Adding and removing *)

(** X6: whenever [add_nickname] returns, it has either returned a new row
    and appended exactly that row to the table, or returned [None] and left
    the whole store as it was; guilds are never touched. *)
Theorem add_nickname_appends_or_nothing (db db' : Database) (g : Z) (t : string) (c : Z)
    (returned : option Nickname.t) :
  DatabaseManager.add_nickname g t c db = (Ok returned, db') →
  match returned with
  | Some n =>
      nicknames db' = (nicknames db ++ [n])%list
      ∧ guilds db' = guilds db
      ∧ n = Nickname.mk (next_id db) g (Py.strip t) true c
  | None => db' = db
  end.
Proof.
  unfold DatabaseManager.add_nickname.
  destruct (Py.truthy (Py.strip t));
    [|intros Heq; inversion Heq; subst; reflexivity]. cbn [negb].
  unfold DatabaseManager.query_nickname, DatabaseManager.insert_nickname,
    DatabaseManager.execute, bind, gets, modify, ret, raise.
  destruct (up db) eqn:Hup; [|discriminate]. cbn [fst snd].
  destruct (List.find _ (nicknames db));
    [intros Heq; inversion Heq; subst; reflexivity|].
  rewrite Hup.
  destruct (50 <? String.length (Py.strip t))%nat; [discriminate|].
  destruct (existsb _ (guilds db)); [|discriminate]. cbn.
  intros Heq. inversion Heq; subst. cbn. auto.
Qed.

Lemma add_nickname_appends_or_nothing_witness :
  nicknames (mkDatabase true (guilds Sample.pool)
               (nicknames Sample.pool ++ [Nickname.mk 3 10 "Agent" true 500]) 4)
  = (nicknames Sample.pool ++ [Nickname.mk 3 10 "Agent" true 500])%list
  ∧ guilds (mkDatabase true (guilds Sample.pool)
              (nicknames Sample.pool ++ [Nickname.mk 3 10 "Agent" true 500]) 4)
    = guilds Sample.pool
  ∧ Nickname.mk 3 10 "Agent" true 500
    = Nickname.mk (next_id Sample.pool) 10 (Py.strip " Agent ") true 500.
Proof.
  exact (add_nickname_appends_or_nothing Sample.pool _ 10 " Agent " 500
           (Some (Nickname.mk 3 10 "Agent" true 500)) eq_refl).
Defined.

(** An unreachable store makes [add_nickname] raise for every text that
    is not blank; a blank text is turned away before the store is asked. *)
Theorem add_nickname_unreachable (db : Database) (g : Z) (t : string) (c : Z) :
  up db = false →
  DatabaseManager.add_nickname g t c db
  = (if Py.truthy (Py.strip t) then Raise OperationalError else Ok None, db).
Proof.
  intros Hup. unfold DatabaseManager.add_nickname.
  destruct (Py.truthy (Py.strip t)); [|reflexivity]. simpl.
  unfold DatabaseManager.query_nickname, DatabaseManager.execute, bind.
  rewrite Hup. reflexivity.
Qed.

Lemma add_nickname_unreachable_witness :
  DatabaseManager.add_nickname 10 "Agent" 500 (mkDatabase false [] [] 1)
  = (Raise OperationalError, mkDatabase false [] [] 1)
  ∧ DatabaseManager.add_nickname 10 "   " 500 (mkDatabase false [] [] 1)
    = (Ok None, mkDatabase false [] [] 1).
Proof.
  split.
  - exact (add_nickname_unreachable (mkDatabase false [] [] 1) 10 "Agent" 500 eq_refl).
  - exact (add_nickname_unreachable (mkDatabase false [] [] 1) 10 "   " 500 eq_refl).
Defined.

(** Trimming, seen from the two ends. *)
Lemma lstrip_no_leading_space (s : string) : starts_with_space (Py.lstrip s) = false.
Proof.
  induction s as [|c s IH]; simpl; [reflexivity|].
  destruct (Py.isspace c) eqn:Hc; [exact IH|]. simpl. exact Hc.
Qed.

Lemma rstrip_no_trailing_space (s : string) : ends_with_space (Py.rstrip s) = false.
Proof.
  induction s as [|c s IH]; simpl; [reflexivity|].
  destruct (Py.rstrip s) as [|d r] eqn:Hr.
  - destruct (Py.isspace c) eqn:Hc; simpl; [reflexivity|exact Hc].
  - exact IH.
Qed.

Lemma rstrip_keeps_head (s : string) :
  starts_with_space s = false → starts_with_space (Py.rstrip s) = false.
Proof.
  destruct s as [|c s]; simpl; [reflexivity|]. intros Hc.
  destruct (Py.rstrip s); [rewrite Hc|]; simpl; exact Hc.
Qed.

Lemma lstrip_fixed (s : string) : starts_with_space s = false → Py.lstrip s = s.
Proof. destruct s as [|c s]; simpl; [reflexivity|]. intros ->. reflexivity. Qed.

Lemma rstrip_fixed (s : string) : ends_with_space s = false → Py.rstrip s = s.
Proof.
  induction s as [|c s IH]; [reflexivity|].
  destruct s as [|d s'].
  - simpl. intros ->. reflexivity.
  - intros H. change (ends_with_space (String d s') = false) in H.
    change (Py.rstrip (String c (String d s')))
      with (match Py.rstrip (String d s') with
            | EmptyString => if Py.isspace c then EmptyString else String c EmptyString
            | r => String c r
            end).
    rewrite (IH H). reflexivity.
Qed.

Lemma strip_ends (s : string) :
  starts_with_space (Py.strip s) = false ∧ ends_with_space (Py.strip s) = false.
Proof.
  unfold Py.strip. split.
  - apply rstrip_keeps_head, lstrip_no_leading_space.
  - apply rstrip_no_trailing_space.
Qed.

Lemma strip_idempotent (s : string) : Py.strip (Py.strip s) = Py.strip s.
Proof.
  destruct (strip_ends s) as [Hl Hr].
  unfold Py.strip at 1. rewrite (lstrip_fixed _ Hl). exact (rstrip_fixed _ Hr).
Qed.

(** What a successful [add_nickname] tells about the store it ran on. *)
Lemma add_nickname_some_inv (db db' : Database) (g : Z) (t : string) (c : Z)
    (n : Nickname.t) :
  DatabaseManager.add_nickname g t c db = (Ok (Some n), db') →
  up db = true
  ∧ Py.strip t ≠ ""
  ∧ List.find (DatabaseManager.matches g (Py.strip t)) (nicknames db) = None
  ∧ n = Nickname.mk (next_id db) g (Py.strip t) true c
  ∧ db' = mkDatabase true (guilds db) (nicknames db ++ [n]) (next_id db + 1).
Proof.
  unfold DatabaseManager.add_nickname.
  destruct (Py.strip t) as [|ch rest] eqn:Hs; [discriminate|].
  cbn [Py.truthy negb].
  unfold DatabaseManager.query_nickname, DatabaseManager.insert_nickname,
    DatabaseManager.execute, bind, gets, modify, ret, raise.
  destruct (up db) eqn:Hup; [|discriminate]. cbn [fst snd].
  destruct (List.find _ (nicknames db)) eqn:Hfind; [discriminate|].
  rewrite Hup.
  destruct (50 <? String.length (String ch rest))%nat; [discriminate|].
  destruct (existsb _ (guilds db)); [|discriminate]. cbn.
  intros Heq. inversion Heq; subst.
  rewrite Hup. repeat split; try reflexivity; try assumption. discriminate.
Qed.

(** X7: the row a successful [add_nickname] returns holds the trimmed text,
    which is not empty and neither starts nor ends with white space; the row
    is active, belongs to the guild and names its creator, and it is in the
    table afterwards. *)
Theorem add_nickname_stores_trimmed_text (db db' : Database) (g : Z) (t : string) (c : Z)
    (n : Nickname.t) :
  DatabaseManager.add_nickname g t c db = (Ok (Some n), db') →
  Nickname.nickname n = Py.strip t
  ∧ Nickname.nickname n ≠ ""
  ∧ starts_with_space (Nickname.nickname n) = false
  ∧ ends_with_space (Nickname.nickname n) = false
  ∧ Nickname.guild_id n = g
  ∧ Nickname.is_active n = true
  ∧ Nickname.created_by n = c
  ∧ n ∈ nicknames db'.
Proof.
  intros Hadd. apply add_nickname_some_inv in Hadd as (_ & Hne & _ & -> & ->).
  destruct (strip_ends t) as [Hl Hr]. simpl.
  repeat split; try assumption.
  apply list_elem_of_In, in_or_app. right. by left.
Qed.

Lemma add_nickname_stores_trimmed_text_witness :
  let n := Nickname.mk 3 10 "Field Agent" true 500 in
  Nickname.nickname n = Py.strip "  Field Agent  "
  ∧ Nickname.nickname n ≠ ""
  ∧ starts_with_space (Nickname.nickname n) = false
  ∧ ends_with_space (Nickname.nickname n) = false
  ∧ Nickname.guild_id n = 10
  ∧ Nickname.is_active n = true
  ∧ Nickname.created_by n = 500
  ∧ n ∈ nicknames (mkDatabase true (guilds Sample.pool)
                     (nicknames Sample.pool ++ [n]) 4).
Proof.
  exact (add_nickname_stores_trimmed_text Sample.pool _ 10 "  Field Agent  " 500 _ eq_refl).
Defined.

(** White space around the text makes no difference to [add_nickname]. *)
Theorem add_nickname_ignores_surrounding_space (db : Database) (g : Z) (t : string) (c : Z) :
  DatabaseManager.add_nickname g (Py.strip t) c db = DatabaseManager.add_nickname g t c db.
Proof. unfold DatabaseManager.add_nickname. rewrite strip_idempotent. reflexivity. Qed.

(** X8: for a text without [%], [_] and backslash a successful
    [add_nickname] never duplicates an active entry of the guild, letter
    case aside. *)
Theorem add_nickname_plain_is_unique (db db' : Database) (g : Z) (t : string) (c : Z)
    (n m : Nickname.t) :
  forallb Sql.plain (list_ascii_of_string (Py.strip t)) = true →
  DatabaseManager.add_nickname g t c db = (Ok (Some n), db') →
  m ∈ nicknames db →
  Nickname.guild_id m = g →
  Nickname.is_active m = true →
  Sql.eq_ci (Nickname.nickname m) (Nickname.nickname n) = false.
Proof.
  intros Hplain Hadd Hm Hg Hact.
  apply add_nickname_some_inv in Hadd as (_ & _ & Hfind & -> & _). simpl.
  apply list_elem_of_In in Hm.
  pose proof (find_none _ _ Hfind m Hm) as Hno.
  unfold DatabaseManager.matches in Hno.
  apply Z.eqb_eq in Hg. rewrite Hg, Hact, andb_true_r in Hno. simpl in Hno.
  rewrite <- (ilike_plain _ _ Hplain). exact Hno.
Qed.

Lemma add_nickname_plain_is_unique_witness :
  Sql.eq_ci "Subject" "Agent" = false.
Proof.
  refine (add_nickname_plain_is_unique Sample.pool _ 10 " Agent" 500
            (Nickname.mk 3 10 "Agent" true 500) (Nickname.mk 1 10 "Subject" true 500)
            eq_refl eq_refl _ eq_refl eq_refl).
  apply list_elem_of_In. by left.
Defined.

(** X9: a row that [add_nickname] has just returned can be drawn: from then
    on no draw for that guild comes back empty. *)
Theorem added_entry_can_be_drawn (db db' : Database) (g : Z) (t : string) (c : Z)
    (n : Nickname.t) (draw : nat) :
  DatabaseManager.add_nickname g t c db = (Ok (Some n), db') →
  ∃ s : string, DatabaseManager.get_random_nickname g draw db' = (Ok (Some s), db').
Proof.
  intros Hadd. apply add_nickname_some_inv in Hadd as (_ & _ & _ & Hn & ->).
  rewrite get_random_nickname_run by reflexivity. simpl.
  set (rows := List.filter (DatabaseManager.active_in g) (nicknames db ++ [n])).
  assert (Hin : In n rows).
  { apply filter_In. split; [apply in_or_app; right; by left|].
    subst n. unfold DatabaseManager.active_in. simpl. by rewrite Z.eqb_refl. }
  assert (Hlen : (0 < List.length rows)%nat) by (destruct rows; [destruct Hin|simpl; lia]).
  pose proof (Nat.mod_upper_bound draw (List.length rows) ltac:(lia)) as Hlt.
  destruct (lookup_lt_is_Some_2 rows _ Hlt) as [x Hx].
  exists (Nickname.nickname x). rewrite Hx. reflexivity.
Qed.

Lemma added_entry_can_be_drawn_witness :
  ∃ s : string,
    DatabaseManager.get_random_nickname 10 7
      (mkDatabase true (guilds Sample.pool)
         (nicknames Sample.pool ++ [Nickname.mk 3 10 "Agent" true 9]) 4)
    = (Ok (Some s),
       mkDatabase true (guilds Sample.pool)
         (nicknames Sample.pool ++ [Nickname.mk 3 10 "Agent" true 9]) 4).
Proof.
  exact (added_entry_can_be_drawn Sample.pool _ 10 "Agent" 9 _ 7 eq_refl).
Defined.

(** X10: [remove_nickname] either reports success and switches off the rows
    that carry the identifier of the first match, or leaves the whole store
    as it was; guilds are never touched. *)
Theorem remove_nickname_switches_off_or_nothing (db : Database) (g : Z) (t : string)
    (r : Z) :
  let '(res, db') := DatabaseManager.remove_nickname g t r db in
  match res with
  | Ok (true, _) =>
      ∃ n, List.find (DatabaseManager.matches g (Py.strip t)) (nicknames db) = Some n
           ∧ nicknames db'
             = map (DatabaseManager.soft_delete (Nickname.id n)) (nicknames db)
           ∧ guilds db' = guilds db
  | _ => db' = db
  end.
Proof.
  unfold DatabaseManager.remove_nickname.
  unfold DatabaseManager.query_guild, DatabaseManager.query_nickname,
    DatabaseManager.execute, bind, gets, modify, ret.
  destruct (up db) eqn:Hup; [|reflexivity]. simpl.
  destruct (List.find _ (guilds db)) as [guild|]; [|reflexivity].
  destruct (Guild.owner_id guild =? r); [|reflexivity]. simpl.
  rewrite Hup. simpl.
  destruct (List.find _ (nicknames db)) as [n|]; [|reflexivity]. simpl.
  rewrite Hup. simpl. eauto.
Qed.

Lemma NoDup_map_inj {A B} (f : A → B) (l : list A) (x y : A) :
  List.NoDup (map f l) → In x l → In y l → f x = f y → x = y.
Proof.
  induction l as [|a l IH]; simpl; [contradiction|].
  intros Hnd Hx Hy Hf. apply NoDup_cons_iff in Hnd as [Hnot Hnd].
  destruct Hx as [->|Hx], Hy as [->|Hy]; auto.
  - exfalso. apply Hnot. rewrite Hf. by apply in_map.
  - exfalso. apply Hnot. rewrite <- Hf. by apply in_map.
Qed.

(** X11: with distinct row identifiers, as a primary key has them, a
    successful removal changes one row only: the first match loses its
    active flag and every other row of the table, in this guild or another,
    stays as it is, in place. *)
Theorem remove_nickname_flips_one_row (db : Database) (g : Z) (t : string)
    (guild : Guild.t) (n : Nickname.t) (i : nat) (m : Nickname.t) :
  up db = true →
  List.NoDup (map Nickname.id (nicknames db)) →
  List.find (λ x, Guild.id x =? g) (guilds db) = Some guild →
  List.find (DatabaseManager.matches g (Py.strip t)) (nicknames db) = Some n →
  nicknames db !! i = Some m →
  let db' := snd (DatabaseManager.remove_nickname g t (Guild.owner_id guild) db) in
  (m ≠ n → nicknames db' !! i = Some m)
  ∧ (m = n →
     nicknames db' !! i
     = Some (Nickname.mk (Nickname.id n) (Nickname.guild_id n) (Nickname.nickname n)
               false (Nickname.created_by n))).
Proof.
  intros Hup Hnd Hguild Hfind Hi.
  rewrite (remove_nickname_match db g t _ guild n Hup Hguild eq_refl Hfind). simpl.
  rewrite list_lookup_fmap, Hi. simpl. unfold DatabaseManager.soft_delete.
  split.
  - intros Hne. destruct (Nickname.id m =? Nickname.id n) eqn:Hid; [|reflexivity].
    exfalso. apply Hne. apply Z.eqb_eq in Hid.
    apply (NoDup_map_inj Nickname.id (nicknames db)); auto.
    + apply list_elem_of_In. eapply list_elem_of_lookup_2. exact Hi.
    + apply find_some in Hfind. tauto.
  - intros ->. rewrite Z.eqb_refl. reflexivity.
Qed.

Lemma remove_nickname_flips_one_row_witness :
  let db' := snd (DatabaseManager.remove_nickname 10 "operator" 500 Sample.pool) in
  (Nickname.mk 1 10 "Subject" true 500 ≠ Nickname.mk 2 10 "Operator" true 500 →
   nicknames db' !! 0%nat = Some (Nickname.mk 1 10 "Subject" true 500))
  ∧ (Nickname.mk 1 10 "Subject" true 500 = Nickname.mk 2 10 "Operator" true 500 →
     nicknames db' !! 0%nat = Some (Nickname.mk 2 10 "Operator" false 500)).
Proof.
  refine (remove_nickname_flips_one_row Sample.pool 10 "operator" (Guild.mk 10 "Lab" 500)
            (Nickname.mk 2 10 "Operator" true 500) 0 (Nickname.mk 1 10 "Subject" true 500)
            eq_refl _ eq_refl eq_refl eq_refl).
  simpl. repeat constructor; simpl; intuition discriminate.
Defined.

(** X12: an entry that was removed is never drawn again: after a successful
    removal every draw, for any guild, returns the text of a row other than
    the removed one. *)
Theorem removed_entry_is_not_drawn (db : Database) (g : Z) (t : string)
    (guild : Guild.t) (n : Nickname.t) (g' : Z) (draw : nat) (s : string) :
  up db = true →
  List.find (λ x, Guild.id x =? g) (guilds db) = Some guild →
  List.find (DatabaseManager.matches g (Py.strip t)) (nicknames db) = Some n →
  let db' := snd (DatabaseManager.remove_nickname g t (Guild.owner_id guild) db) in
  fst (DatabaseManager.get_random_nickname g' draw db') = Ok (Some s) →
  ∃ m, m ∈ nicknames db
       ∧ Nickname.id m ≠ Nickname.id n
       ∧ Nickname.guild_id m = g'
       ∧ Nickname.is_active m = true
       ∧ Nickname.nickname m = s.
Proof.
  intros Hup Hguild Hfind.
  rewrite (remove_nickname_match db g t _ guild n Hup Hguild eq_refl Hfind). cbn [snd].
  set (db1 := mkDatabase true _ _ _). intros Hdraw.
  destruct (DatabaseManager.get_random_nickname g' draw db1) as [res db2] eqn:Hrun.
  cbn [fst] in Hdraw. subst res.
  rewrite (get_random_nickname_run db1 g' draw eq_refl) in Hrun.
  injection Hrun as Hrun _.
  destruct (List.filter _ _ !! _) as [m'|] eqn:Hrow; [|discriminate].
  injection Hrun as Hs.
  apply list_elem_of_lookup_2, list_elem_of_In, filter_In in Hrow as [Hin Hact'].
  apply active_in_spec in Hact' as [Hg Hact].
  simpl in Hin. apply in_map_iff in Hin as (m & Hm & Hin).
  unfold DatabaseManager.soft_delete in Hm.
  destruct (Nickname.id m =? Nickname.id n) eqn:Hid.
  - subst m'. simpl in Hact. discriminate.
  - subst m'. exists m. apply Z.eqb_neq in Hid.
    split; [by apply list_elem_of_In|]. auto.
Qed.

Lemma removed_entry_is_not_drawn_witness :
  ∃ m, m ∈ nicknames Sample.pool
       ∧ Nickname.id m ≠ 2
       ∧ Nickname.guild_id m = 10
       ∧ Nickname.is_active m = true
       ∧ Nickname.nickname m = "Subject".
Proof.
  exact (removed_entry_is_not_drawn Sample.pool 10 " Operator " (Guild.mk 10 "Lab" 500)
           (Nickname.mk 2 10 "Operator" true 500) 10 5 "Subject"
           eq_refl eq_refl eq_refl eq_refl).
Defined.

(** X13: a removed text can be added again.  Take texts of plain ASCII, a
    text of at most 50 characters that is not blank, and let it match rows
    of one identifier only; then after the owner's removal the same text is
    accepted as new; the switched-off row stays in the table, which grows by
    one. *)
Theorem removed_text_can_be_added_again (db : Database) (g : Z) (t : string) (c : Z)
    (guild : Guild.t) (n : Nickname.t) :
  up db = true →
  Py.strip t ≠ "" →
  (String.length (Py.strip t) ≤ 50)%nat →
  Py.isascii (Py.strip t) = true →
  (∀ m, m ∈ nicknames db → Py.isascii (Nickname.nickname m) = true) →
  List.find (λ x, Guild.id x =? g) (guilds db) = Some guild →
  List.find (DatabaseManager.matches g (Py.strip t)) (nicknames db) = Some n →
  (∀ m, m ∈ nicknames db → DatabaseManager.matches g (Py.strip t) m = true →
        Nickname.id m = Nickname.id n) →
  let db1 := snd (DatabaseManager.remove_nickname g t (Guild.owner_id guild) db) in
  ∃ (new : Nickname.t) (db2 : Database),
    DatabaseManager.add_nickname g t c db1 = (Ok (Some new), db2)
    ∧ Nickname.nickname new = Py.strip t
    ∧ List.length (nicknames db2) = S (List.length (nicknames db)).
Proof.
  intros Hup Hne Hlen _ _ Hguild Hfind Honly.
  rewrite (remove_nickname_match db g t _ guild n Hup Hguild eq_refl Hfind). simpl.
  set (db1 := mkDatabase true _ _ _).
  assert (Hnone : List.find (DatabaseManager.matches g (Py.strip t)) (nicknames db1) = None).
  { destruct (List.find _ (nicknames db1)) as [x|] eqn:Hx; [|reflexivity]. exfalso.
    apply find_some in Hx as [Hin Hmatch]. simpl in Hin.
    apply in_map_iff in Hin as (m & Hm & Hin).
    unfold DatabaseManager.soft_delete in Hm.
    destruct (Nickname.id m =? Nickname.id n) eqn:Hid.
    - subst x. unfold DatabaseManager.matches in Hmatch. simpl in Hmatch.
      rewrite andb_false_r in Hmatch. discriminate.
    - subst x. apply Z.eqb_neq in Hid. apply Hid, Honly; [by apply list_elem_of_In|done]. }
  assert (Hreg : existsb (λ x, Guild.id x =? g) (guilds db1) = true).
  { apply existsb_exists. exists guild. apply find_some in Hguild. exact Hguild. }
  pose proof (add_nickname_fresh db1 g t c eq_refl Hne Hnone Hlen Hreg) as Hadd.
  simpl in Hadd.
  eexists _, _. split; [exact Hadd|]. simpl. split; [reflexivity|].
  rewrite length_app, length_map. simpl. lia.
Qed.

Lemma removed_text_can_be_added_again_witness :
  let db1 := snd (DatabaseManager.remove_nickname 10 "Operator" 500 Sample.pool) in
  ∃ (new : Nickname.t) (db2 : Database),
    DatabaseManager.add_nickname 10 "Operator" 501 db1 = (Ok (Some new), db2)
    ∧ Nickname.nickname new = Py.strip "Operator"
    ∧ List.length (nicknames db2) = S (List.length (nicknames Sample.pool)).
Proof.
  refine (removed_text_can_be_added_again Sample.pool 10 "Operator" 501
            (Guild.mk 10 "Lab" 500) (Nickname.mk 2 10 "Operator" true 500)
            eq_refl _ _ eq_refl _ eq_refl eq_refl _).
  - discriminate.
  - simpl. lia.
  - intros m Hm. apply list_elem_of_In in Hm. simpl in Hm.
    destruct Hm as [<-|[<-|[]]]; reflexivity.
  - intros m Hm Hmatch. apply list_elem_of_In in Hm. simpl in Hm.
    destruct Hm as [<-|[<-|[]]]; [discriminate Hmatch|reflexivity].
Defined.

(** Without the bound on the length the engine refuses the second step: a
    text of 51 characters can be removed, as a pattern, and not added. *)
Example long_text_is_refused :
  let t := "Operator%%%%%%%%%%%%%%%%%%%%%%%%%%%%%%%%%%%%%%%%%%%" in
  String.length t = 51%nat
  ∧ fst (DatabaseManager.remove_nickname 10 t 500 Sample.pool)
    = Ok (true, "Nickname '" +:+ t +:+ "' removed successfully")
  ∧ fst (DatabaseManager.add_nickname 10 t 501
           (snd (DatabaseManager.remove_nickname 10 t 500 Sample.pool)))
    = Raise DataError.
Proof. vm_compute. auto. Qed.

(** ** Listing *)

Section ListingFacts.

Context (collate : relation string) `{∀ x y, Decision (collate x y)}.

(** The listing on a reachable store, in one equation. *)
Lemma get_guild_nicknames_run (db : Database) (g : Z) :
  up db = true →
  get_guild_nicknames collate g db
  = (Ok (merge_sort (λ a b, collate (Nickname.nickname a) (Nickname.nickname b))
           (List.filter (DatabaseManager.active_in g) (nicknames db))),
     db).
Proof.
  intros Hup. unfold get_guild_nicknames, DatabaseManager.execute, bind, gets, ret.
  rewrite Hup. reflexivity.
Qed.

(** X14: on a reachable store the listing of a guild holds exactly the
    active rows of that guild, each as often as the table has it, and leaves
    the store as it was; when the collation compares any two texts, the
    listing is in ascending order of the texts. *)
Theorem get_guild_nicknames_lists_active (db : Database) (g : Z) :
  up db = true →
  ∃ l : list Nickname.t,
    get_guild_nicknames collate g db = (Ok l, db)
    ∧ l ≡ₚ List.filter (DatabaseManager.active_in g) (nicknames db)
    ∧ (∀ n, n ∈ l ↔ n ∈ nicknames db
                     ∧ Nickname.guild_id n = g ∧ Nickname.is_active n = true)
    ∧ (Total collate →
       Sorted (λ a b, collate (Nickname.nickname a) (Nickname.nickname b)) l).
Proof.
  intros Hup. eexists. split; [exact (get_guild_nicknames_run db g Hup)|].
  split; [apply merge_sort_Permutation|]. split.
  - intros n. rewrite merge_sort_Permutation.
    rewrite !list_elem_of_In, filter_In, active_in_spec. reflexivity.
  - intros Htotal.
    assert (Hrows : Total (λ a b : Nickname.t,
                             collate (Nickname.nickname a) (Nickname.nickname b))).
    { intros a b. apply Htotal. }
    apply (Sorted_merge_sort _).
Qed.

(** X15: a draw and the listing agree: the draw comes back empty exactly
    when the listing is empty, and what it returns otherwise is the text of
    a listed row. *)
Theorem random_entry_is_listed (db : Database) (g : Z) (draw : nat) :
  up db = true →
  let listed := fst (get_guild_nicknames collate g db) in
  let drawn := fst (DatabaseManager.get_random_nickname g draw db) in
  (drawn = Ok None ↔ listed = Ok [])
  ∧ (∀ s, drawn = Ok (Some s) →
          ∃ l n, listed = Ok l ∧ n ∈ l ∧ Nickname.nickname n = s).
Proof.
  intros Hup. rewrite (get_guild_nicknames_run db g Hup).
  rewrite (get_random_nickname_run db g draw Hup). cbn [fst].
  set (rows := List.filter (DatabaseManager.active_in g) (nicknames db)).
  set (by_text := λ a b, collate (Nickname.nickname a) (Nickname.nickname b)).
  split.
  - split.
    + intros Hnone. f_equal. apply Permutation_nil_r.
      rewrite merge_sort_Permutation.
      destruct rows as [|x rows']; [reflexivity|]. exfalso.
      pose proof (Nat.mod_upper_bound draw (List.length (x :: rows')) ltac:(simpl; lia))
        as Hlt.
      destruct (lookup_lt_is_Some_2 (x :: rows') _ Hlt) as [y Hy].
      rewrite Hy in Hnone. discriminate.
    + intros Hnil. injection Hnil as Hnil.
      assert (Hrows : rows = []).
      { apply Permutation_nil_r. rewrite <- (merge_sort_Permutation by_text rows).
        rewrite Hnil. reflexivity. }
      rewrite Hrows. reflexivity.
  - intros s Hs. destruct (rows !! _) as [n|] eqn:Hn; [|discriminate].
    injection Hs as <-. eexists _, n. split; [reflexivity|]. split; [|reflexivity].
    rewrite merge_sort_Permutation. eapply list_elem_of_lookup_2. exact Hn.
Qed.

End ListingFacts.

Lemma by_code_point_total : Total by_code_point.
Proof. intros a b. apply String.leb_total. Qed.

Lemma get_guild_nicknames_lists_active_witness :
  ∃ l : list Nickname.t,
    get_guild_nicknames by_code_point 10 Sample.pool = (Ok l, Sample.pool)
    ∧ l ≡ₚ List.filter (DatabaseManager.active_in 10) (nicknames Sample.pool)
    ∧ (∀ n, n ∈ l ↔ n ∈ nicknames Sample.pool
                     ∧ Nickname.guild_id n = 10 ∧ Nickname.is_active n = true)
    ∧ (Total by_code_point →
       Sorted (λ a b, by_code_point (Nickname.nickname a) (Nickname.nickname b)) l).
Proof.
  exact (get_guild_nicknames_lists_active by_code_point Sample.pool 10 eq_refl).
Defined.

(** On the sample store the listing puts [Operator] before [Subject]. *)
Example listing_of_pool :
  fst (get_guild_nicknames by_code_point 10 Sample.pool)
  = Ok [Nickname.mk 2 10 "Operator" true 500; Nickname.mk 1 10 "Subject" true 500].
Proof. vm_compute. reflexivity. Qed.

Lemma random_entry_is_listed_witness :
  let listed := fst (get_guild_nicknames by_code_point 10 Sample.pool) in
  let drawn := fst (DatabaseManager.get_random_nickname 10 1 Sample.pool) in
  (drawn = Ok None ↔ listed = Ok [])
  ∧ (∀ s, drawn = Ok (Some s) →
          ∃ l n, listed = Ok l ∧ n ∈ l ∧ Nickname.nickname n = s).
Proof.
  exact (random_entry_is_listed by_code_point Sample.pool 10 1 eq_refl).
Defined.

(** * Further properties of the presence tracker *)

(** The generator reads the store and writes the log, nothing else. *)
Lemma generate_nickname_keeps_db (g : Z) (dr : draws) (w : World) :
  db (snd (generate_nickname g dr w)) = db w.
Proof.
  destruct w as [ledger odb lg rq rp].
  unfold generate_nickname, try_except, bind, gets, on_db,
    DatabaseManager.get_random_nickname, DatabaseManager.execute, bind, gets, ret,
    subscript, log, modify, raise.
  rewrite no_nickname_formats. simpl.
  destruct odb as [[[] gs ns k]|]; simpl; auto.
  destruct (List.filter _ ns !! _) as [n|]; simpl; auto.
  destruct (Py.truthy (Nickname.nickname n)); simpl; auto.
Qed.

(** X16: the generator returns an identity only when the store hands it one:
    every returned string is the non-empty text of an active entry of the
    guild in a reachable store, and the call leaves everything as it was.
    In every other case it raises. *)
Theorem generate_nickname_only_from_store (g : Z) (dr : draws) (w w' : World) (s : string) :
  generate_nickname g dr w = (Ok s, w') →
  w' = w
  ∧ s ≠ ""
  ∧ ∃ (d : Database) (n : Nickname.t),
      db w = Some d ∧ up d = true ∧ n ∈ nicknames d
      ∧ Nickname.guild_id n = g ∧ Nickname.is_active n = true
      ∧ Nickname.nickname n = s.
Proof.
  destruct w as [ledger odb lg rq rp].
  unfold generate_nickname, try_except, bind, gets, on_db,
    DatabaseManager.get_random_nickname, DatabaseManager.execute, bind, gets, ret,
    subscript, log, modify, raise.
  rewrite no_nickname_formats. simpl.
  destruct odb as [[[] gs ns k]|]; simpl; try discriminate.
  destruct (List.filter _ ns !! _) as [n|] eqn:Hrow; simpl; try discriminate.
  destruct (Py.truthy (Nickname.nickname n)) eqn:Ht; simpl; try discriminate.
  intros Heq. inversion Heq; subst. split; [reflexivity|]. split.
  - intros Hs. rewrite Hs in Ht. discriminate.
  - apply list_elem_of_lookup_2, list_elem_of_In, filter_In in Hrow as [Hin Hact].
    apply active_in_spec in Hact as [Hg Ha].
    exists (mkDatabase true gs ns k), n. simpl.
    repeat split; auto. by apply list_elem_of_In.
Qed.

Lemma generate_nickname_only_from_store_witness :
  Sample.online = Sample.online
  ∧ "Operator" ≠ ""
  ∧ ∃ (d : Database) (n : Nickname.t),
      db Sample.online = Some d ∧ up d = true ∧ n ∈ nicknames d
      ∧ Nickname.guild_id n = 10 ∧ Nickname.is_active n = true
      ∧ Nickname.nickname n = "Operator".
Proof.
  exact (generate_nickname_only_from_store 10 (mkDraws 3 0 0) Sample.online Sample.online
           "Operator" eq_refl).
Defined.

(** X17: a join of [bot_working.py] never raises and stays local: it touches
    the record of no other user, leaves store and replies alone, and sends
    at most one request, for this member and with a non-empty identity.
    Unless the platform accepts that request, the member is as before. *)
Theorem join_is_local (w : World) (member : Member.t) (dr : draws) (a : answer) :
  ∃ (m1 : Member.t) (w1 : World),
    bot_working.handle_voice_join member dr a w = (Ok m1, w1)
    ∧ (∀ u, u ≠ Member.id member → original_nicknames w1 !! u = original_nicknames w !! u)
    ∧ db w1 = db w
    ∧ replies w1 = replies w
    ∧ (requests w1 = requests w
       ∨ ∃ s, s ≠ "" ∧ requests w1 = (requests w ++ [(Member.id member, Some s)])%list)
    ∧ (a ≠ Accepted → m1 = member).
Proof.
  unfold bot_working.handle_voice_join, try_except, bind, modify.
  set (w0 := set_ledger _ w).
  pose proof (generate_nickname_frame (Member.guild_id member) dr w0) as (Hl & Hrq & Hrp).
  pose proof (generate_nickname_keeps_db (Member.guild_id member) dr w0) as Hdb.
  destruct (generate_nickname (Member.guild_id member) dr w0) as [[s|e] w'] eqn:Hgen;
    simpl in Hl, Hrq, Hrp, Hdb.
  - destruct (Py.truthy s) eqn:Ht.
    + assert (Hs : s ≠ "") by (intros ->; discriminate).
      destruct a; simpl; eexists _, _; (split; [reflexivity|]); simpl;
        rewrite Hl, Hdb, Hrq, Hrp; simpl;
        (split; [intros u Hu; by rewrite lookup_insert_ne|]);
        repeat split; eauto; congruence.
    + simpl. eexists _, _. split; [reflexivity|]. rewrite Hl, Hdb, Hrq, Hrp. simpl.
      split; [intros u Hu; by rewrite lookup_insert_ne|]. auto.
  - assert (Hrest :
      (∀ u, u ≠ Member.id member →
            <[Member.id member:=Member.display_name member]> (original_nicknames w) !! u
            = original_nicknames w !! u)) by (intros u Hu; by rewrite lookup_insert_ne).
    destruct e; simpl; eexists _, _; (split; [reflexivity|]); simpl;
      rewrite Hl, Hdb, Hrq, Hrp; simpl; auto 10.
Qed.

(** X18: a leave of [bot_working.py] never raises and stays local in the
    same way; the one request it can send is the restore of the stored
    original. *)
Theorem leave_is_local (w : World) (member : Member.t) (a : answer) :
  ∃ (m1 : Member.t) (w1 : World),
    bot_working.handle_voice_leave member a w = (Ok m1, w1)
    ∧ (∀ u, u ≠ Member.id member → original_nicknames w1 !! u = original_nicknames w !! u)
    ∧ db w1 = db w
    ∧ replies w1 = replies w
    ∧ (requests w1 = requests w
       ∨ ∃ o, original_nicknames w !! Member.id member = Some o
              ∧ requests w1 = (requests w ++ [restore_request member o])%list).
Proof.
  destruct (original_nicknames w !! Member.id member) as [o|] eqn:Hrec.
  - rewrite (leave_tracked w member a o Hrec).
    destruct a; eexists _, _; (split; [reflexivity|]); simpl;
      (split; [intros u Hu; by rewrite ?lookup_delete_ne|]); eauto 10.
  - rewrite (leave_untracked w member a Hrec). eexists _, _. split; [reflexivity|]. auto.
Qed.

(** X19: once a leave has gone through, a further leave of the same member
    does nothing, whatever the platform would answer. *)
Theorem second_leave_is_noop (w : World) (member : Member.t) (a : answer) :
  ∃ (m1 : Member.t) (w1 : World),
    bot_working.handle_voice_leave member Accepted w = (Ok m1, w1)
    ∧ bot_working.handle_voice_leave m1 a w1 = (Ok m1, w1).
Proof.
  destruct (original_nicknames w !! Member.id member) as [o|] eqn:Hrec.
  - rewrite (leave_tracked w member Accepted o Hrec).
    eexists _, _. split; [reflexivity|].
    apply leave_untracked. simpl. apply lookup_delete_eq.
  - rewrite (leave_untracked w member Accepted Hrec).
    eexists _, _. split; [reflexivity|]. exact (leave_untracked w member a Hrec).
Qed.

(** ** The restore command *)

(** X20: for the owner, a restore of a member without a record only answers
    that nothing is stored: no request is sent and nothing changes. *)
Theorem restore_untracked (w : World) (i : Interaction.t) (target : Member.t) (a : answer) :
  Some (Interaction.issuer_id (Interaction.user i)) = Interaction.guild_owner_id i →
  original_nicknames w !! Member.id target = None →
  bot_working.restore_command i (Some target) a w
  = (Ok (Some target),
     mkWorld (original_nicknames w) (db w) (logger w) (requests w)
       (replies w ++ [NoStoredNickname (Member.id target)])).
Proof.
  intros Howner Hrec. unfold bot_working.restore_command, try_except, bind, gets.
  rewrite bool_decide_eq_true_2 by exact Howner. simpl. rewrite Hrec. reflexivity.
Qed.

Lemma restore_untracked_witness :
  bot_working.restore_command (Interaction.mk (Interaction.IsUser 500) (Some 500) ∅)
    (Some Sample.alice) Accepted Sample.online
  = (Ok (Some Sample.alice),
     mkWorld (original_nicknames Sample.online) (db Sample.online) (logger Sample.online)
       (requests Sample.online) (replies Sample.online ++ [NoStoredNickname 1])).
Proof.
  exact (restore_untracked Sample.online
           (Interaction.mk (Interaction.IsUser 500) (Some 500) ∅) Sample.alice Accepted
           eq_refl eq_refl).
Defined.

(** X21: for the owner, a restore does to the ledger, to the store and to
    the platform what a leave of the target does, for every answer of the
    platform: the same request goes out and the same records remain. *)
Theorem restore_acts_like_leave (w : World) (i : Interaction.t) (target : Member.t)
    (a : answer) :
  Some (Interaction.issuer_id (Interaction.user i)) = Interaction.guild_owner_id i →
  let w1 := snd (bot_working.restore_command i (Some target) a w) in
  let w2 := snd (bot_working.handle_voice_leave target a w) in
  original_nicknames w1 = original_nicknames w2
  ∧ requests w1 = requests w2
  ∧ db w1 = db w2.
Proof.
  intros Howner.
  destruct (original_nicknames w !! Member.id target) as [o|] eqn:Hrec.
  - rewrite (leave_tracked w target a o Hrec).
    unfold bot_working.restore_command, try_except, bind, gets.
    rewrite bool_decide_eq_true_2 by exact Howner. simpl. rewrite Hrec.
    unfold restore_request.
    destruct (String.eqb o (Member.name target)); destruct a; simpl; auto.
  - rewrite (leave_untracked w target a Hrec).
    unfold bot_working.restore_command, try_except, bind, gets.
    rewrite bool_decide_eq_true_2 by exact Howner. simpl. rewrite Hrec. simpl. auto.
Qed.

Lemma restore_acts_like_leave_witness :
  let i := Interaction.mk (Interaction.IsUser 500) (Some 500) ∅ in
  let w1 := snd (bot_working.restore_command i (Some Sample.alice_substituted) Refused
                   (Sample.tracking "Alice")) in
  let w2 := snd (bot_working.handle_voice_leave Sample.alice_substituted Refused
                   (Sample.tracking "Alice")) in
  original_nicknames w1 = original_nicknames w2
  ∧ requests w1 = requests w2
  ∧ db w1 = db w2.
Proof.
  exact (restore_acts_like_leave (Sample.tracking "Alice")
           (Interaction.mk (Interaction.IsUser 500) (Some 500) ∅)
           Sample.alice_substituted Refused eq_refl).
Defined.

(** X22: the owner check is all that separates the restore command of
    [bot_working.py] from that of [bot_final.py]: for the owner the two do
    the same, and for everyone else the former only answers that the command
    is for the owner. *)
Theorem restore_command_is_gated_bot_final (w : World) (i : Interaction.t)
    (member : option Member.t) (a : answer) :
  bot_working.restore_command i member a w
  = if issued_by_owner i
    then bot_final.restore_command i member a w
    else (Ok None,
          mkWorld (original_nicknames w) (db w) (logger w) (requests w)
            (replies w ++ [OwnerOnly])).
Proof.
  unfold bot_working.restore_command, bot_final.restore_command, issued_by_owner,
    try_except, bind.
  destruct (bool_decide _); reflexivity.
Qed.

(** In [bot_final.py] anyone can restore a tracked member: whoever
    issues the command, the stored original is requested from the platform
    and, once accepted, the record is gone. *)
Theorem bot_final_restore_open_to_all (w : World) (i : Interaction.t) (target : Member.t)
    (original : string) :
  original_nicknames w !! Member.id target = Some original →
  let w' := snd (bot_final.restore_command i (Some target) Accepted w) in
  original_nicknames w' !! Member.id target = None
  ∧ requests w' = (requests w ++ [restore_request target original])%list
  ∧ replies w' = (replies w ++ [RestoredTo (Member.id target) original])%list.
Proof.
  intros Hrec. unfold bot_final.restore_command, try_except, bind, gets, restore_request.
  simpl. rewrite Hrec.
  destruct (String.eqb original (Member.name target)); simpl;
    (split; [apply lookup_delete_eq|auto]).
Qed.

Lemma bot_final_restore_open_to_all_witness :
  let w' := snd (bot_final.restore_command
                   (Interaction.mk (Interaction.IsUser 42) (Some 500) ∅)
                   (Some Sample.alice_substituted) Accepted (Sample.tracking "Alice")) in
  original_nicknames w' !! 1 = None
  ∧ requests w' = [(1, Some "Alice")]
  ∧ replies w' = [RestoredTo 1 "Alice"].
Proof.
  exact (bot_final_restore_open_to_all (Sample.tracking "Alice")
           (Interaction.mk (Interaction.IsUser 42) (Some 500) ∅)
           Sample.alice_substituted "Alice" eq_refl).
Defined.

(** ** Which events reach the tracker, once more *)

(** X23: only the two edges of a human member reach the tracker: an event
    about an automated participant, a move between channels and a change
    while absent leave everything as it is. *)
Theorem only_edges_of_humans_reach_tracker (member : Member.t) (before after : VoiceState)
    (dr : draws) (a : answer) (w : World) :
  Member.bot member = true ∨ (is_Some (channel before) ↔ is_Some (channel after)) →
  bot_working.on_voice_state_update member before after dr a w = (Ok member, w).
Proof.
  intros [Hbot|Hsame].
  - exact (bots_are_ignored member before after dr a w Hbot).
  - exact (no_edge_no_transition member before after dr a w Hsame).
Qed.

Lemma only_edges_of_humans_reach_tracker_witness :
  bot_working.on_voice_state_update Sample.alice (mkVoiceState (Some 7))
    (mkVoiceState (Some 8)) (mkDraws 0 0 0) Accepted Sample.online
  = (Ok Sample.alice, Sample.online).
Proof.
  apply only_edges_of_humans_reach_tracker. right. simpl.
  split; intros _; eexists; reflexivity.
Defined.

(** ** The presence tracker of [bot.py], continued *)

(** X24: a leave of [bot.py] never raises and always ends without a record
    for the member; for a tracked member exactly one request goes out, the
    restore of the stored original, and other users' records stay. *)
Theorem bot_py_leave_always_pops (w : World) (member : Member.t) (a : answer) :
  ∃ (m1 : Member.t) (w1 : World),
    bot_py.handle_voice_leave member a w = (Ok m1, w1)
    ∧ original_nicknames w1 = delete (Member.id member) (original_nicknames w)
    ∧ requests w1
      = match original_nicknames w !! Member.id member with
        | Some o => (requests w ++ [restore_request member o])%list
        | None => requests w
        end.
Proof.
  unfold bot_py.handle_voice_leave, bind, gets, try_except, restore_request.
  destruct (original_nicknames w !! Member.id member) as [o|] eqn:Hrec.
  - destruct (String.eqb o (Member.name member)); destruct a; simpl;
      eexists _, _; (split; [reflexivity|]); auto.
  - simpl. eexists _, _. split; [reflexivity|]. split; [|reflexivity].
    symmetry. apply delete_id. exact Hrec.
Qed.

(** X25: in [bot.py] the generator runs outside every [try]: when the
    fallback is reached on a join of an untracked member, the exception
    leaves the handler, after the record has been created and before any
    request is sent. *)
Theorem bot_py_join_lets_generator_failure_out (member : Member.t) (dr : draws)
    (a : answer) (ledger : gmap Z string) (lg : list (level * log_msg))
    (rq : list request) (rp : list reply) :
  ledger !! Member.id member = None →
  bot_py.handle_voice_join member dr a (mkWorld ledger None lg rq rp)
  = (Raise (KeyError "nickname_formats"),
     mkWorld (<[Member.id member := Member.display_name member]> ledger) None
       (lg ++ [(INFO, JoinedVoice (Member.id member));
               (INFO, StoredOriginal (Member.id member) (Member.display_name member))])
       rq rp).
Proof.
  intros Hrec. unfold bot_py.handle_voice_join, bind, gets, modify, log, set_ledger.
  cbn -[generate_nickname]. rewrite Hrec. cbn -[generate_nickname].
  rewrite generate_nickname_without_db. rewrite <- app_assoc. reflexivity.
Qed.

Lemma bot_py_join_lets_generator_failure_out_witness :
  bot_py.handle_voice_join Sample.alice (mkDraws 0 0 0) Accepted (mkWorld ∅ None [] [] [])
  = (Raise (KeyError "nickname_formats"),
     mkWorld (<[1 := "alice"]> ∅) None
       [(INFO, JoinedVoice 1); (INFO, StoredOriginal 1 "alice")] [] []).
Proof.
  exact (bot_py_join_lets_generator_failure_out Sample.alice (mkDraws 0 0 0) Accepted
           ∅ [] [] [] eq_refl).
Defined.



(** * Registration and the pool commands *)

(** One round of the registration loop on a reachable store. *)
Lemma register_guilds_cons (guild : PlatformGuild.t) (rest : list PlatformGuild.t)
    (s : Shell) (d : Database) :
  db (shell_bot s) = Some d →
  up d = true →
  ∃ (s1 : Shell) (d1 : Database),
    bot_working_commands.register_guilds (guild :: rest) s
    = bot_working_commands.register_guilds rest s1
    ∧ db (shell_bot s1) = Some d1
    ∧ up d1 = true
    ∧ List.find (λ x, Guild.id x =? PlatformGuild.id guild) (guilds d1)
      = Some (Guild.mk (PlatformGuild.id guild) (PlatformGuild.name guild)
                (PlatformGuild.owner_or_0 guild))
    ∧ (∀ g', g' ≠ PlatformGuild.id guild →
         List.find (λ x, Guild.id x =? g') (guilds d1)
         = List.find (λ x, Guild.id x =? g') (guilds d))
    ∧ nicknames d1 = nicknames d
    ∧ original_nicknames (shell_bot s1) = original_nicknames (shell_bot s)
    ∧ requests (shell_bot s1) = requests (shell_bot s)
    ∧ command_replies s1 = command_replies s.
Proof.
  intros Hdb Hup.
  destruct (ensure_guild_exists_run d (PlatformGuild.id guild) (PlatformGuild.name guild)
              (PlatformGuild.owner_or_0 guild) Hup)
    as (r0 & d1 & Hrun & Hfind & Hother & Hup1 & Hns & _ & _ & _).
  cbn [bot_working_commands.register_guilds].
  unfold bind at 1. unfold try_except, bind, on_bot, on_db, note, modify.
  rewrite Hdb, Hrun. cbn.
  eexists _, d1. split; [reflexivity|]. cbn. auto 10.
Qed.

Lemma register_guilds_run (gs : list PlatformGuild.t) :
  ∀ (s : Shell) (d : Database),
    db (shell_bot s) = Some d →
    up d = true →
    List.NoDup (map PlatformGuild.id gs) →
    ∃ (s' : Shell) (d' : Database),
      bot_working_commands.register_guilds gs s = (Ok tt, s')
      ∧ db (shell_bot s') = Some d'
      ∧ up d' = true
      ∧ (∀ guild, In guild gs →
           List.find (λ x, Guild.id x =? PlatformGuild.id guild) (guilds d')
           = Some (Guild.mk (PlatformGuild.id guild) (PlatformGuild.name guild)
                     (PlatformGuild.owner_or_0 guild)))
      ∧ (∀ g', ¬ In g' (map PlatformGuild.id gs) →
           List.find (λ x, Guild.id x =? g') (guilds d')
           = List.find (λ x, Guild.id x =? g') (guilds d))
      ∧ nicknames d' = nicknames d
      ∧ original_nicknames (shell_bot s') = original_nicknames (shell_bot s)
      ∧ requests (shell_bot s') = requests (shell_bot s)
      ∧ command_replies s' = command_replies s.
Proof.
  induction gs as [|guild rest IH]; intros s d Hdb Hup Hnd.
  - exists s, d. simpl. repeat split; auto. intros guild [].
  - simpl in Hnd. apply NoDup_cons_iff in Hnd as [Hfresh Hnd].
    destruct (register_guilds_cons guild rest s d Hdb Hup)
      as (s1 & d1 & Hstep & Hdb1 & Hup1 & Hfind1 & Hother1 & Hns1 & Hl1 & Hrq1 & Hrp1).
    destruct (IH s1 d1 Hdb1 Hup1 Hnd)
      as (s' & d' & Hrun & Hdb' & Hup' & Hall & Hother & Hns & Hl & Hrq & Hrp).
    exists s', d'. rewrite Hstep, Hrun. split; [reflexivity|].
    split; [exact Hdb'|]. split; [exact Hup'|]. split.
    { intros g [<-|Hin]; [|exact (Hall g Hin)].
      rewrite (Hother _ Hfresh). exact Hfind1. }
    split.
    { intros g' Hg'. simpl in Hg'.
      rewrite (Hother g') by tauto. apply Hother1. intros ->. tauto. }
    repeat split; congruence.
Qed.

(** X27: when the bot is ready and its store can be reached, every guild it
    is in ends up registered with the name and the owner the platform
    reports, owner 0 standing for an unknown owner; the handler does not
    raise, and entries, ledger and platform are left alone. *)
Theorem on_ready_registers_every_guild (gs : list PlatformGuild.t) (s : Shell)
    (d : Database) (guild : PlatformGuild.t) :
  db (shell_bot s) = Some d →
  up d = true →
  List.NoDup (map PlatformGuild.id gs) →
  In guild gs →
  ∃ (s' : Shell) (d' : Database),
    bot_working_commands.on_ready gs s = (Ok tt, s')
    ∧ db (shell_bot s') = Some d'
    ∧ DatabaseManager.query_guild (PlatformGuild.id guild) d'
      = (Ok (Some (Guild.mk (PlatformGuild.id guild) (PlatformGuild.name guild)
                     (PlatformGuild.owner_or_0 guild))), d')
    ∧ nicknames d' = nicknames d
    ∧ original_nicknames (shell_bot s') = original_nicknames (shell_bot s)
    ∧ requests (shell_bot s') = requests (shell_bot s).
Proof.
  intros Hdb Hup Hnd Hin.
  unfold bot_working_commands.on_ready, bind, note, modify, on_bot, gets. cbn.
  rewrite Hdb.
  set (s0 := mkShell _ _ _).
  destruct (register_guilds_run gs s0 d Hdb Hup Hnd)
    as (s' & d' & Hrun & Hdb' & Hup' & Hall & _ & Hns & Hl & Hrq & _).
  exists s', d'. split; [exact Hrun|]. split; [exact Hdb'|]. split.
  - unfold DatabaseManager.query_guild, DatabaseManager.execute, bind, gets.
    rewrite Hup', (Hall guild Hin). reflexivity.
  - auto.
Qed.

Lemma on_ready_registers_every_guild_witness :
  ∃ (s' : Shell) (d' : Database),
    bot_working_commands.on_ready
      [PlatformGuild.mk 10 "Lab" (Some 777); PlatformGuild.mk 11 "Annex" None]
      (mkShell Sample.online [] [])
    = (Ok tt, s')
    ∧ db (shell_bot s') = Some d'
    ∧ DatabaseManager.query_guild 11 d' = (Ok (Some (Guild.mk 11 "Annex" 0)), d')
    ∧ nicknames d' = nicknames Sample.pool
    ∧ original_nicknames (shell_bot s') = ∅
    ∧ requests (shell_bot s') = [].
Proof.
  refine (on_ready_registers_every_guild
            [PlatformGuild.mk 10 "Lab" (Some 777); PlatformGuild.mk 11 "Annex" None]
            (mkShell Sample.online [] []) Sample.pool (PlatformGuild.mk 11 "Annex" None)
            eq_refl eq_refl _ _).
  - simpl. repeat constructor; simpl; intuition discriminate.
  - right. left. reflexivity.
Defined.

(** X28: the add command never raises and answers exactly once; it never
    touches the ledger or the platform, and for anyone but the owner it
    leaves the bot, store included, exactly as it was. *)
Theorem add_nickname_command_is_safe (inv : Invocation) (text : string) (s : Shell) :
  ∃ (s' : Shell) (r : command_reply),
    bot_working_commands.add_nickname_command inv text s = (Ok tt, s')
    ∧ command_replies s' = (command_replies s ++ [r])%list
    ∧ original_nicknames (shell_bot s') = original_nicknames (shell_bot s)
    ∧ requests (shell_bot s') = requests (shell_bot s)
    ∧ (issued_by_owner (interaction inv) = false → shell_bot s' = shell_bot s).
Proof.
  destruct s as [[ledger odb lg rq rp] crs cls].
  unfold bot_working_commands.add_nickname_command, try_except, bind, on_bot, gets,
    respond, note, modify. cbn.
  destruct odb as [d|]; cbn; [|eexists _, _; split; [reflexivity|]; cbn; auto].
  destruct (issued_by_owner (interaction inv)); cbn;
    [|eexists _, _; split; [reflexivity|]; cbn; auto].
  unfold on_db. cbn.
  destruct (DatabaseManager.add_nickname _ _ _ d) as [[[n|]|e] d']; cbn;
    eexists _, _; (split; [reflexivity|]); cbn; repeat split; auto; discriminate.
Qed.

(** X29: a store that cannot be reached does not break the add command: for
    the owner and a text that is not blank the exception is logged, the
    answer is the error reply, and nothing else changes. *)
Theorem add_nickname_command_reports_store_failure (inv : Invocation) (text : string)
    (s : Shell) (d : Database) :
  db (shell_bot s) = Some d →
  up d = false →
  issued_by_owner (interaction inv) = true →
  Py.strip text ≠ "" →
  bot_working_commands.add_nickname_command inv text s
  = (Ok tt,
     mkShell (shell_bot s) (command_replies s ++ [ErrorAdding])
       (command_logs s ++ [(ERROR, ErrorAddingNickname OperationalError)])).
Proof.
  intros Hdb Hup Howner Htext.
  destruct s as [[ledger odb lg rq rp] crs cls]. cbn in Hdb. subst odb.
  unfold bot_working_commands.add_nickname_command, try_except, bind, on_bot, gets,
    respond, note, modify, on_db. cbn.
  rewrite Howner. cbn.
  rewrite (add_nickname_unreachable d _ text _ Hup).
  destruct (Py.strip text) as [|c rest] eqn:Hs; [contradiction|]. cbn. reflexivity.
Qed.

Lemma add_nickname_command_reports_store_failure_witness :
  bot_working_commands.add_nickname_command
    (mkInvocation (Interaction.mk (Interaction.IsUser 500) (Some 500) ∅) 10) "Agent"
    (mkShell (mkWorld ∅ (Some (mkDatabase false [] [] 1)) [] [] []) [] [])
  = (Ok tt,
     mkShell (mkWorld ∅ (Some (mkDatabase false [] [] 1)) [] [] []) [ErrorAdding]
       [(ERROR, ErrorAddingNickname OperationalError)]).
Proof.
  refine (add_nickname_command_reports_store_failure
            (mkInvocation (Interaction.mk (Interaction.IsUser 500) (Some 500) ∅) 10)
            "Agent" (mkShell (mkWorld ∅ (Some (mkDatabase false [] [] 1)) [] [] []) [] [])
            (mkDatabase false [] [] 1) eq_refl eq_refl eq_refl _).
  discriminate.
Defined.

(** X30: the remove command checks the owner twice, against the platform and
    then, inside the store, against the registered row.  When the platform's
    owner issues the command while the store still has another owner on
    record, the store turns the owner away and no entry is switched off. *)
Theorem remove_nickname_command_stale_owner (inv : Invocation) (text : string)
    (s : Shell) (d : Database) (guild : Guild.t) :
  db (shell_bot s) = Some d →
  up d = true →
  issued_by_owner (interaction inv) = true →
  List.find (λ x, Guild.id x =? in_guild inv) (guilds d) = Some guild →
  Guild.owner_id guild ≠ Interaction.issuer_id (Interaction.user (interaction inv)) →
  bot_working_commands.remove_nickname_command inv text s
  = (Ok tt,
     mkShell (shell_bot s)
       (command_replies s ++ [RemoveFailed "Only the server owner can remove nicknames"])
       (command_logs s)).
Proof.
  intros Hdb Hup Howner Hguild Hstale.
  destruct s as [[ledger odb lg rq rp] crs cls]. cbn in Hdb. subst odb.
  unfold bot_working_commands.remove_nickname_command, try_except, bind, on_bot, gets,
    respond, note, modify, on_db. cbn.
  rewrite Howner. cbn.
  rewrite (remove_nickname_not_owner d _ text _ guild Hup Hguild Hstale). reflexivity.
Qed.

Lemma remove_nickname_command_stale_owner_witness :
  bot_working_commands.remove_nickname_command
    (mkInvocation (Interaction.mk (Interaction.IsUser 777) (Some 777) ∅) 10) "Subject"
    (mkShell Sample.online [] [])
  = (Ok tt,
     mkShell Sample.online [RemoveFailed "Only the server owner can remove nicknames"] []).
Proof.
  refine (remove_nickname_command_stale_owner
            (mkInvocation (Interaction.mk (Interaction.IsUser 777) (Some 777) ∅) 10)
            "Subject" (mkShell Sample.online [] []) Sample.pool (Guild.mk 10 "Lab" 500)
            eq_refl eq_refl eq_refl eq_refl _).
  simpl. lia.
Defined.
